(** * oidc-go: the OpenID Connect discovery client and the program entry point

    A shallow embedding of package [oidc] (the [Configuration] struct, its
    methods [Valid] and [FillDefaultValuesIfEmpty], and
    [GetOpenIDConnectConfiguration]) and of [cmd/jwt-auth-proxy/main.go].

    Go values are rendered as follows.
    - [string] is [String.string]; the empty string is [""].
    - [[]string] is [list string].  The code only ever observes a slice
      through [len], so a nil slice and an empty non-nil slice are both [[]].
    - [*bool] is [option bool]; [nil] is [None].
    - [error] is [option error]; [nil] is [None].
    - Calls that leave the package (net/http, encoding/json, os, the server
      package) are events of a small free monad; a world answers them. *)

From Stdlib Require Import String List ZArith Lia.
Import ListNotations.
Open Scope string_scope.

(** ** Errors (github.com/pkg/errors) *)

Inductive error : Type :=
| New (msg : string)                     (* errors.New(msg) *)
| Wrap (cause : error) (msg : string)    (* errors.Wrap(cause, msg), cause non-nil *)
| Errorf_d (format : string) (d : Z).    (* errors.Errorf(format, d), one %d verb *)

(** ** The provider metadata *)

Record Configuration : Type := mkConfiguration {
  Issuer : string;
  AuthorizationEndpoint : string;
  TokenEndpoint : string;
  UserInfoEndpoint : string;
  JWKSURI : string;
  RegistrationEndpoint : string;
  ScopesSupported : list string;
  ResponseTypesSupported : list string;
  ResponseModesSupported : list string;
  GrantTypesSupported : list string;
  ACRValuesSupported : list string;
  SubjectTypesSupported : list string;
  IDTokenSigningAlgValuesSupported : list string;
  IDTokenEncryptionEncValuesSupported : list string;
  UserInfoSigningAlgValuesSupported : list string;
  UserInfoEncryptionAlgValuesSupported : list string;
  UserInfoEncryptionEncValuesSupported : list string;
  RequestObjectSigningAlgValuesSupported : list string;
  RequestObjectEncryptionAlgValuesSupported : list string;
  RequestObjectEncryptionEncValuesSupported : list string;
  TokenEndpointAuthMethodsSupported : list string;
  TokenEndpointAuthSigningAlgValuesSupported : list string;
  DisplayValuesSupported : list string;
  ClaimTypesSupported : list string;
  ClaimsSupported : list string;
  ServiceDocumentation : string;
  ClaimsLocalesSupported : list string;
  UILocalesSupported : list string;
  ClaimsParameterSupported : bool;
  RequestParameterSupported : bool;
  RequestURIParameterSupported : option bool;
  RequireRequestURIRegistration : bool;
  OpPolicyURI : string;
  OpTOSURI : string
}.

(** The zero value of the struct: what a named result holds before any
    assignment. *)
Definition zeroConfiguration : Configuration :=
  mkConfiguration "" "" "" "" "" "" [] [] [] [] [] [] [] [] [] [] [] [] [] []
                  [] [] [] [] [] "" [] [] false false None false "" "".

(** Field assignments [config.F = v] for the four fields the code writes. *)

Definition set_ResponseModesSupported (v : list string) (c : Configuration) :=
  mkConfiguration
    (Issuer c) (AuthorizationEndpoint c) (TokenEndpoint c) (UserInfoEndpoint c)
    (JWKSURI c) (RegistrationEndpoint c) (ScopesSupported c)
    (ResponseTypesSupported c) v (GrantTypesSupported c)
    (ACRValuesSupported c) (SubjectTypesSupported c)
    (IDTokenSigningAlgValuesSupported c) (IDTokenEncryptionEncValuesSupported c)
    (UserInfoSigningAlgValuesSupported c) (UserInfoEncryptionAlgValuesSupported c)
    (UserInfoEncryptionEncValuesSupported c)
    (RequestObjectSigningAlgValuesSupported c)
    (RequestObjectEncryptionAlgValuesSupported c)
    (RequestObjectEncryptionEncValuesSupported c)
    (TokenEndpointAuthMethodsSupported c)
    (TokenEndpointAuthSigningAlgValuesSupported c) (DisplayValuesSupported c)
    (ClaimTypesSupported c) (ClaimsSupported c) (ServiceDocumentation c)
    (ClaimsLocalesSupported c) (UILocalesSupported c)
    (ClaimsParameterSupported c) (RequestParameterSupported c)
    (RequestURIParameterSupported c) (RequireRequestURIRegistration c)
    (OpPolicyURI c) (OpTOSURI c).

Definition set_GrantTypesSupported (v : list string) (c : Configuration) :=
  mkConfiguration
    (Issuer c) (AuthorizationEndpoint c) (TokenEndpoint c) (UserInfoEndpoint c)
    (JWKSURI c) (RegistrationEndpoint c) (ScopesSupported c)
    (ResponseTypesSupported c) (ResponseModesSupported c) v
    (ACRValuesSupported c) (SubjectTypesSupported c)
    (IDTokenSigningAlgValuesSupported c) (IDTokenEncryptionEncValuesSupported c)
    (UserInfoSigningAlgValuesSupported c) (UserInfoEncryptionAlgValuesSupported c)
    (UserInfoEncryptionEncValuesSupported c)
    (RequestObjectSigningAlgValuesSupported c)
    (RequestObjectEncryptionAlgValuesSupported c)
    (RequestObjectEncryptionEncValuesSupported c)
    (TokenEndpointAuthMethodsSupported c)
    (TokenEndpointAuthSigningAlgValuesSupported c) (DisplayValuesSupported c)
    (ClaimTypesSupported c) (ClaimsSupported c) (ServiceDocumentation c)
    (ClaimsLocalesSupported c) (UILocalesSupported c)
    (ClaimsParameterSupported c) (RequestParameterSupported c)
    (RequestURIParameterSupported c) (RequireRequestURIRegistration c)
    (OpPolicyURI c) (OpTOSURI c).

Definition set_TokenEndpointAuthMethodsSupported
    (v : list string) (c : Configuration) :=
  mkConfiguration
    (Issuer c) (AuthorizationEndpoint c) (TokenEndpoint c) (UserInfoEndpoint c)
    (JWKSURI c) (RegistrationEndpoint c) (ScopesSupported c)
    (ResponseTypesSupported c) (ResponseModesSupported c) (GrantTypesSupported c)
    (ACRValuesSupported c) (SubjectTypesSupported c)
    (IDTokenSigningAlgValuesSupported c) (IDTokenEncryptionEncValuesSupported c)
    (UserInfoSigningAlgValuesSupported c) (UserInfoEncryptionAlgValuesSupported c)
    (UserInfoEncryptionEncValuesSupported c)
    (RequestObjectSigningAlgValuesSupported c)
    (RequestObjectEncryptionAlgValuesSupported c)
    (RequestObjectEncryptionEncValuesSupported c)
    v
    (TokenEndpointAuthSigningAlgValuesSupported c) (DisplayValuesSupported c)
    (ClaimTypesSupported c) (ClaimsSupported c) (ServiceDocumentation c)
    (ClaimsLocalesSupported c) (UILocalesSupported c)
    (ClaimsParameterSupported c) (RequestParameterSupported c)
    (RequestURIParameterSupported c) (RequireRequestURIRegistration c)
    (OpPolicyURI c) (OpTOSURI c).

Definition set_RequestURIParameterSupported
    (v : option bool) (c : Configuration) :=
  mkConfiguration
    (Issuer c) (AuthorizationEndpoint c) (TokenEndpoint c) (UserInfoEndpoint c)
    (JWKSURI c) (RegistrationEndpoint c) (ScopesSupported c)
    (ResponseTypesSupported c) (ResponseModesSupported c) (GrantTypesSupported c)
    (ACRValuesSupported c) (SubjectTypesSupported c)
    (IDTokenSigningAlgValuesSupported c) (IDTokenEncryptionEncValuesSupported c)
    (UserInfoSigningAlgValuesSupported c) (UserInfoEncryptionAlgValuesSupported c)
    (UserInfoEncryptionEncValuesSupported c)
    (RequestObjectSigningAlgValuesSupported c)
    (RequestObjectEncryptionAlgValuesSupported c)
    (RequestObjectEncryptionEncValuesSupported c)
    (TokenEndpointAuthMethodsSupported c)
    (TokenEndpointAuthSigningAlgValuesSupported c) (DisplayValuesSupported c)
    (ClaimTypesSupported c) (ClaimsSupported c) (ServiceDocumentation c)
    (ClaimsLocalesSupported c) (UILocalesSupported c)
    (ClaimsParameterSupported c) (RequestParameterSupported c)
    v (RequireRequestURIRegistration c)
    (OpPolicyURI c) (OpTOSURI c).

(** [s == ""] on Go strings. *)
Definition is_empty (s : string) : bool :=
  match s with EmptyString => true | String _ _ => false end.

(** [len(xs) == 0] on Go slices. *)
Definition len_is_zero (xs : list string) : bool :=
  Nat.eqb (List.length xs) 0.

(** ** [func (config Configuration) Valid() error] *)

Definition Valid (config : Configuration) : option error :=
  if is_empty (Issuer config) then
    Some (New "authproxy/oidc: issuer is empty")
  else if is_empty (AuthorizationEndpoint config) then
    Some (New "authproxy/oidc: authorization_endpoint is empty")
  else if is_empty (JWKSURI config) then
    Some (New "authproxy/oidc: jwks_uri is empty")
  else if len_is_zero (ResponseTypesSupported config) then
    Some (New "authproxy/oidc: response_types_supported is empty")
  else if len_is_zero (SubjectTypesSupported config) then
    Some (New "authproxy/oidc: subject_types_supported is empty")
  else if len_is_zero (IDTokenSigningAlgValuesSupported config) then
    Some (New "authproxy/oidc: id_token_signing_alg_values_supported is empty")
  else None.

(** ** [func (config *Configuration) FillDefaultValuesIfEmpty()]

    The receiver is a pointer and the method assigns through it; the embedding
    passes the pointee in and returns the pointee after the call. *)

Definition FillDefaultValuesIfEmpty (config : Configuration) : Configuration :=
  let config :=
    if len_is_zero (ResponseModesSupported config)
    then set_ResponseModesSupported ["query"; "fragment"] config
    else config in
  let config :=
    if len_is_zero (GrantTypesSupported config)
    then set_GrantTypesSupported ["authorization_code"; "implicit"] config
    else config in
  let config :=
    if len_is_zero (TokenEndpointAuthMethodsSupported config)
    then set_TokenEndpointAuthMethodsSupported ["client_secret_basic"] config
    else config in
  let config :=
    match RequestURIParameterSupported config with
    | None => let b := true in set_RequestURIParameterSupported (Some b) config
    | Some _ => config
    end in
  config.

(** ** The world outside the package

    net/http, encoding/json, os and the server package are not part of the
    code under study.  What they hand back is decided by a world; the code is
    a program that asks and continues with the answer. *)

(** [context.Context]: opaque to this code, which only attaches it to the
    request.  A nil context is not a value of this type. *)
Inductive Context : Type :=
| Background
| WithCancel (parent : Context)
| WithTimeout (parent : Context) (nanos : Z).

(** [*http.Request], as far as this code touches it. *)
Record Request : Type := mkRequest {
  Method : string;
  URL : string;
  req_ctx : Context
}.

(** [req.WithContext(ctx)]: a copy of the request carrying [ctx]. *)
Definition WithContext (req : Request) (ctx : Context) : Request :=
  mkRequest (Method req) (URL req) ctx.

(** [resp.Body], an [io.ReadCloser], named by the bytes the peer sent.  Whether
    reading or closing it succeeds is the world's to say. *)
Definition ReadCloser : Type := string.

(** [*http.Response], as far as this code touches it. *)
Record Response : Type := mkResponse {
  StatusCode : Z;
  Body : ReadCloser
}.

(** The pointee of a non-nil [*http.Client]. *)
Inductive Client : Type :=
| TheDefaultClient
| CustomClient (id : nat).

(** [http.DefaultClient], a non-nil [*http.Client]. *)
Definition http_DefaultClient : option Client := Some TheDefaultClient.

Definition http_MethodGet : string := "GET".
Definition http_StatusOK : Z := 200.

(** [http.Handler] values the program passes around. *)
Inductive Handler : Type :=
| upstream_Echo.   (* upstream.Echo{} *)

(** A Go [(value, error)] pair of which exactly one side is meaningful. *)
Inductive result (A : Type) : Type :=
| Ok (a : A)
| Err (e : error).
Arguments Ok {A} a.
Arguments Err {A} e.

(** The calls that leave the code under study, indexed by what they return. *)
Inductive call : Type -> Type :=
| os_Getenv (key : string) : call string
| server_RunHTTP (port : string) (h : Handler) : call (option error)
| http_NewRequest (method url : string) : call (result Request)
| client_Do (c : Client) (req : Request) : call (result Response)
| json_Decode (body : ReadCloser) (into : Configuration)
    : call (Configuration * option error)
| body_Close (body : ReadCloser) : call (option error).

(** A call together with its answer, as it appears in a run's log. *)
Inductive event : Type :=
| EvGetenv (key value : string)
| EvRunHTTP (port : string) (h : Handler) (err : option error)
| EvNewRequest (method url : string) (res : result Request)
| EvDo (c : Client) (req : Request) (res : result Response)
| EvDecode (body : ReadCloser) (into : Configuration)
    (res : Configuration * option error)
| EvClose (body : ReadCloser) (err : option error).

Definition answered {X : Type} (c : call X) : X -> event :=
  match c in call X return X -> event with
  | os_Getenv key => EvGetenv key
  | server_RunHTTP port h => EvRunHTTP port h
  | http_NewRequest method url => EvNewRequest method url
  | client_Do c req => EvDo c req
  | json_Decode body into => EvDecode body into
  | body_Close body => EvClose body
  end.

(** Programs: return, panic, or make a call and continue with its answer. *)
Inductive prog (R : Type) : Type :=
| Ret (r : R)
| Panic (e : error)
| Vis (X : Type) (c : call X) (k : X -> prog R).
Arguments Ret {R} r.
Arguments Panic {R} e.
Arguments Vis {R X} c k.

Fixpoint bind {A B : Type} (p : prog A) (f : A -> prog B) : prog B :=
  match p with
  | Ret a => f a
  | Panic e => Panic e
  | Vis c k => Vis c (fun x => bind (k x) f)
  end.

Definition perform {X : Type} (c : call X) : prog X := Vis c Ret.

Declare Scope prog_scope.
Delimit Scope prog_scope with prog.
Notation "x <- p ;; q" := (bind p (fun x => q))
  (at level 61, p at next level, right associativity) : prog_scope.
Notation "' pat <- p ;; q" := (bind p (fun x => match x with pat => q end))
  (at level 61, pat pattern, p at next level, right associativity) : prog_scope.
Open Scope prog_scope.

(** How a run ends. *)
Inductive outcome (R : Type) : Type :=
| Returned (r : R)
| Panicked (e : error).
Arguments Returned {R} r.
Arguments Panicked {R} e.

(** A world with states [W] answers each call and moves on. *)
Definition world (W : Type) : Type := forall X : Type, call X -> W -> X * W.

Fixpoint run {W R : Type} (h : world W) (p : prog R) (w : W)
  : list event * outcome R :=
  match p with
  | Ret r => ([], Returned r)
  | Panic e => ([], Panicked e)
  | Vis c k =>
      let (x, w') := h _ c w in
      let (tr, o) := run h (k x) w' in
      (answered c x :: tr, o)
  end.

(** [client.Do(req)] through a [*http.Client] that may be nil: the method
    reads fields of its receiver, so a nil receiver panics. *)
Definition Do (client : option Client) (req : Request) : prog (result Response) :=
  match client with
  | None =>
      Panic (New "runtime error: invalid memory address or nil pointer dereference")
  | Some c => perform (client_Do c req)
  end.

(** The deferred closure of [GetOpenIDConnectConfiguration]: it runs after
    the results are set, closes the body and, if that fails, replaces the
    named result [err]; [config] is left as the body of the function set it. *)
Definition deferred_close (resp : Response)
    (results : Configuration * option error) : prog (Configuration * option error) :=
  let (config, err) := results in
  errClose <- perform (body_Close (Body resp)) ;;
  match errClose with
  | Some e =>
      Ret (config, Some (Wrap e "authproxy/oidc: couldn't close HTTP response body"))
  | None => Ret (config, err)
  end.

(** ** [func GetOpenIDConnectConfiguration(ctx, client, url) (config, err)] *)

Definition GetOpenIDConnectConfiguration
    (ctx : Context) (client : option Client) (url : string)
  : prog (Configuration * option error) :=
  let config := zeroConfiguration in
  let client := match client with None => http_DefaultClient | Some _ => client end in
  r <- perform (http_NewRequest http_MethodGet url) ;;
  match r with
  | Err err =>
      Ret (config, Some (Wrap err "authproxy/oidc: couldn't create HTTP request"))
  | Ok req =>
      let req := WithContext req ctx in
      r <- Do client req ;;
      match r with
      | Err err =>
          Ret (config, Some (Wrap err "authproxy/oidc: HTTP request failed"))
      | Ok resp =>
          results <-
            (if negb (Z.eqb (StatusCode resp) http_StatusOK) then
               Ret (config,
                    Some (Errorf_d "authproxy:oidc received non-200 status code: %d"
                                   (StatusCode resp)))
             else
               '(config, err) <- perform (json_Decode (Body resp) config) ;;
               match err with
               | Some err =>
                   Ret (config,
                        Some (Wrap err
                          "authproxy/oidc: couldn't decode HTTP response body to JSON"))
               | None =>
                   let config := FillDefaultValuesIfEmpty config in
                   Ret (config, None)
               end) ;;
          deferred_close resp results
      end
  end.

(** ** [func main()] of cmd/jwt-auth-proxy *)

Definition main : prog unit :=
  port <- perform (os_Getenv "PORT") ;;
  err <- perform (server_RunHTTP port upstream_Echo) ;;
  match err with
  | Some err => Panic err
  | None => Ret tt
  end.

(** ** Reading a run's log *)

Definition is_some {A : Type} (o : option A) : bool :=
  match o with Some _ => true | None => false end.

(** The ways a call made by [GetOpenIDConnectConfiguration] can go wrong. *)

Definition request_creation_failed (tr : list event) : Prop :=
  exists method url e, In (EvNewRequest method url (Err e)) tr.

Definition transport_failed (tr : list event) : Prop :=
  exists c req e, In (EvDo c req (Err e)) tr.

Definition status_not_ok (tr : list event) : Prop :=
  exists c req resp,
    In (EvDo c req (Ok resp)) tr /\ StatusCode resp <> http_StatusOK.

Definition body_undecodable (tr : list event) : Prop :=
  exists body into config e, In (EvDecode body into (config, Some e)) tr.

Definition close_failed (tr : list event) : Prop :=
  exists body e, In (EvClose body (Some e)) tr.

(** The error a failed transport call is reported with. *)
Definition is_transport_failure (err : option error) : bool :=
  match err with
  | Some (Wrap _ msg) => String.eqb msg "authproxy/oidc: HTTP request failed"
  | _ => false
  end.

Definition is_fetch (ev : event) : bool :=
  match ev with EvDo _ _ _ => true | _ => false end.

Definition is_serve (ev : event) : bool :=
  match ev with EvRunHTTP _ _ _ => true | _ => false end.

Definition discovery_succeeded (ev : event) : bool :=
  match ev with EvDecode _ _ (_, None) => true | _ => false end.

(** A startup that serves only behind a fetched and decoded discovery
    document: every [server.RunHTTP] in the log comes after one. *)
Fixpoint gated (discovered : bool) (tr : list event) : bool :=
  match tr with
  | [] => true
  | ev :: tr' =>
      (if is_serve ev then discovered else true)
      && gated (discovered || discovery_succeeded ev) tr'
  end.

(** The client a call is sent with: the given one, or the default one when
    the pointer is nil. *)
Definition client_used (client : option Client) : Client :=
  match client with Some c => c | None => TheDefaultClient end.

(** What the deferred closure makes of [err], given the answer of [Close]. *)
Definition after_close (errClose err : option error) : option error :=
  match errClose with
  | Some e => Some (Wrap e "authproxy/oidc: couldn't close HTTP response body")
  | None => err
  end.

(** The five ways through [GetOpenIDConnectConfiguration], each with the log
    it leaves and the results it returns.  [c] is the client the request is
    sent with. *)
Inductive walk (ctx : Context) (c : Client) (url : string)
  : list event -> Configuration * option error -> Prop :=
| walk_no_request (e : error) :
    walk ctx c url
      [EvNewRequest http_MethodGet url (Err e)]
      (zeroConfiguration,
       Some (Wrap e "authproxy/oidc: couldn't create HTTP request"))
| walk_no_response (req : Request) (e : error) :
    walk ctx c url
      [EvNewRequest http_MethodGet url (Ok req);
       EvDo c (WithContext req ctx) (Err e)]
      (zeroConfiguration, Some (Wrap e "authproxy/oidc: HTTP request failed"))
| walk_bad_status (req : Request) (resp : Response) (errClose : option error) :
    StatusCode resp <> http_StatusOK ->
    walk ctx c url
      [EvNewRequest http_MethodGet url (Ok req);
       EvDo c (WithContext req ctx) (Ok resp);
       EvClose (Body resp) errClose]
      (zeroConfiguration,
       after_close errClose
         (Some (Errorf_d "authproxy:oidc received non-200 status code: %d"
                         (StatusCode resp))))
| walk_bad_body (req : Request) (resp : Response) (config : Configuration)
    (e : error) (errClose : option error) :
    StatusCode resp = http_StatusOK ->
    walk ctx c url
      [EvNewRequest http_MethodGet url (Ok req);
       EvDo c (WithContext req ctx) (Ok resp);
       EvDecode (Body resp) zeroConfiguration (config, Some e);
       EvClose (Body resp) errClose]
      (config,
       after_close errClose
         (Some (Wrap e "authproxy/oidc: couldn't decode HTTP response body to JSON")))
| walk_decoded (req : Request) (resp : Response) (config : Configuration)
    (errClose : option error) :
    StatusCode resp = http_StatusOK ->
    walk ctx c url
      [EvNewRequest http_MethodGet url (Ok req);
       EvDo c (WithContext req ctx) (Ok resp);
       EvDecode (Body resp) zeroConfiguration (config, None);
       EvClose (Body resp) errClose]
      (FillDefaultValuesIfEmpty config, after_close errClose None).

(** ** A small concrete world

    Answers are fixed functions of the call; the world has no state of its
    own.  Three providers are reachable: one that serves the empty JSON
    object, one whose discovery path is missing, one that never answers in
    time. *)

Definition context_DeadlineExceeded : error := New "context deadline exceeded".

Definition op_url : string :=
  "https://op.example/.well-known/openid-configuration".
Definition gone_url : string :=
  "https://gone.example/.well-known/openid-configuration".
Definition slow_url : string :=
  "https://slow.example/.well-known/openid-configuration".
(** [url.Parse] rejects this one: it has no scheme. *)
Definition bad_url : string := ":".

Definition internet : world unit :=
  fun X c w =>
    match c in call X return X * unit with
    | os_Getenv key => (if String.eqb key "PORT" then "8080" else "", w)
    | server_RunHTTP _ _ => (Some (New "http: Server closed"), w)
    | http_NewRequest method url =>
        (if String.eqb url bad_url
         then Err (Wrap (New "missing protocol scheme") "parse")
         else Ok (mkRequest method url Background), w)
    | client_Do _ req =>
        (if String.eqb (URL req) op_url then Ok (mkResponse 200 "{}")
         else if String.eqb (URL req) slow_url
         then Err (Wrap context_DeadlineExceeded "Get")
         else Ok (mkResponse 404 "404 page not found"), w)
    | json_Decode body into =>
        (if String.eqb body "{}" then (into, None)
         else (into, Some (New "invalid character")), w)
    | body_Close _ => (None, w)
    end.

(** A discovery document that carries the six required fields and a token
    endpoint, and nothing else. *)
Definition minimal_document : Configuration :=
  mkConfiguration
    "https://op.example" "https://op.example/authorize"
    "https://op.example/token" "" "https://op.example/jwks" ""
    [] ["code"] [] [] [] ["public"] ["RS256"] [] [] [] [] [] [] []
    [] [] [] [] [] "" [] [] false false None false "" "".

(** The same document without the token endpoint. *)
Definition implicit_only_document : Configuration :=
  mkConfiguration
    "https://op.example" "https://op.example/authorize"
    "" "" "https://op.example/jwks" ""
    [] ["code"] [] [] [] ["public"] ["RS256"] [] [] [] [] [] [] []
    [] [] [] [] [] "" [] [] false false None false "" "".

(** ** The login callback *)

Module Gate.

(** Modelled from the spec: the login flow controller is not among the
    sources (only the flow diagram and a commented-out call constructing the
    middleware are).  [Session] follows section 3 of the specification. *)
Record Session : Type := mkSession {
  sessionID : string;
  accessToken : option string;
  refreshToken : option string;
  accessTokenExpiry : option Z;
  state : option string;
  originalURL : option string
}.

(** Modelled from the spec: the three parameters the callback reads from the
    provider's redirect (section 4.2), each possibly absent. *)
Record CallbackRequest : Type := mkCallbackRequest {
  cb_code : option string;
  cb_state : option string;
  cb_error : option string
}.

(** Modelled from the spec: what a successful code exchange yields. *)
Record Tokens : Type := mkTokens {
  tok_access : string;
  tok_refresh : option string;
  tok_expiry : Z
}.

(** Modelled from the spec: the responses of the callback endpoint. *)
Inductive Reply : Type :=
| GenericError                     (* does not say which check failed *)
| ExchangeError                    (* code exchange failed; no tokens, no redirect *)
| SeeOther (location : string).    (* 303 *)

(** Modelled from the spec: the error taxonomy of section 7, callback part. *)
Inductive Failure : Type :=
| StateMismatch
| CallbackError
| ExchangeFailed.

(** Modelled from the spec: the exact comparison of the callback's [state]
    with the stored one, absence of either counting as a mismatch. *)
Definition state_matches (stored received : option string) : bool :=
  match stored, received with
  | Some s, Some r => String.eqb s r
  | _, _ => false
  end.

(** Modelled from the spec: the stored [state] is invalidated once it has
    matched (section 3: it must match exactly once, then is invalidated);
    nothing else in the session changes. *)
Definition invalidate_state (sess : Session) : Session :=
  mkSession (sessionID sess) (accessToken sess) (refreshToken sess)
            (accessTokenExpiry sess) None (originalURL sess).

(** Modelled from the spec: the Callback phase of section 4.2.  [exchange]
    stands for the token endpoint (grant_type=authorization_code); [None] is
    a failed exchange.  A mismatch is reported as [StateMismatch] whatever
    else the request holds (section 8), so the state is checked first; a
    state that matched is invalidated whether or not the rest of the callback
    succeeds; tokens are stored only on success. *)
Definition Callback (exchange : option string -> option Tokens)
    (sess : Session) (req : CallbackRequest)
  : Session * Reply * option Failure :=
  if negb (state_matches (state sess) (cb_state req)) then
    (sess, GenericError, Some StateMismatch)
  else if is_some (cb_error req) then
    (invalidate_state sess, GenericError, Some CallbackError)
  else
    match exchange (cb_code req) with
    | None => (invalidate_state sess, ExchangeError, Some ExchangeFailed)
    | Some t =>
        (mkSession (sessionID sess) (Some (tok_access t)) (tok_refresh t)
                   (Some (tok_expiry t)) None None,
         SeeOther (match originalURL sess with Some u => u | None => "/" end),
         None)
    end.

(** Modelled from the spec: what the Initiate phase needs of the deployment
    (section 4.2): the provider's authorization endpoint, the client id and
    the gate's own callback URL. *)
Record Login : Type := mkLogin {
  authorization_endpoint : string;
  client_id : string;
  redirect_uri : string
}.

(** Modelled from the spec: the [state] values the gate generates.  The spec
    asks for a fresh value at every login; fresh is rendered as never issued
    before: the value issued after [n] others is [nonce n], and no two of
    them are equal. *)
Fixpoint nonce (n : nat) : string :=
  match n with
  | O => "."
  | S m => "x" ++ nonce m
  end.

(** Modelled from the spec: a browser session together with the number of
    [state] values generated for it so far. *)
Record Flow : Type := mkFlow {
  session : Session;
  issued : nat
}.

(** Modelled from the spec: no session yet is an all-empty session (section
    4.3, step 1), for which nothing has been generated. *)
Definition anonymous (sid : string) : Flow :=
  mkFlow (mkSession sid None None None None None) 0.

(** Modelled from the spec: the Initiate phase of section 4.2.  Tokens held
    by the session are cleared first, a fresh state is generated and stored
    with the requested URL, and the browser is sent to the provider. *)
Definition Initiate (login : Login) (url : string) (flow : Flow)
  : Flow * Reply :=
  let fresh := nonce (issued flow) in
  (mkFlow (mkSession (sessionID (session flow)) None None None
                     (Some fresh) (Some url))
          (S (issued flow)),
   SeeOther (authorization_endpoint login
             ++ "?response_type=code&client_id=" ++ client_id login
             ++ "&redirect_uri=" ++ redirect_uri login
             ++ "&scope=openid&state=" ++ fresh)).

(** What can happen to a session in the login flow: a login is initiated for
    a requested URL, or a callback arrives. *)
Inductive Step : Type :=
| Initiated (url : string)
| CalledBack (exchange : option string -> option Tokens) (req : CallbackRequest).

Definition step (login : Login) (flow : Flow) (st : Step) : Flow :=
  match st with
  | Initiated url => fst (Initiate login url flow)
  | CalledBack exchange req =>
      mkFlow (fst (fst (Callback exchange (session flow) req))) (issued flow)
  end.

(** The flow after a sequence of steps, oldest first. *)
Definition after (login : Login) (flow : Flow) (steps : list Step) : Flow :=
  fold_left (step login) steps flow.

End Gate.

(** ** More readers of the log, and a second concrete world *)

Definition is_close (ev : event) : bool :=
  match ev with EvClose _ _ => true | _ => false end.

Definition is_new_request (ev : event) : bool :=
  match ev with EvNewRequest _ _ _ => true | _ => false end.

Definition is_decode (ev : event) : bool :=
  match ev with EvDecode _ _ _ => true | _ => false end.

(** How many events of a kind a log holds. *)
Definition count (p : event -> bool) (tr : list event) : nat :=
  List.length (List.filter p tr).

(** The double quote, and a JSON string literal without escapes. *)
Definition dq : string := String (Ascii.ascii_of_nat 34) EmptyString.
Definition quoted (s : string) : string := dq ++ s ++ dq.

(** The bytes of a discovery document with the six required members and a
    token endpoint; decoded into the zero value it gives [minimal_document]. *)
Definition minimal_json : string :=
  "{" ++ quoted "issuer" ++ ":" ++ quoted "https://op.example" ++ ","
  ++ quoted "authorization_endpoint" ++ ":"
  ++ quoted "https://op.example/authorize" ++ ","
  ++ quoted "token_endpoint" ++ ":" ++ quoted "https://op.example/token" ++ ","
  ++ quoted "jwks_uri" ++ ":" ++ quoted "https://op.example/jwks" ++ ","
  ++ quoted "response_types_supported" ++ ":[" ++ quoted "code" ++ "],"
  ++ quoted "subject_types_supported" ++ ":[" ++ quoted "public" ++ "],"
  ++ quoted "id_token_signing_alg_values_supported" ++ ":["
  ++ quoted "RS256" ++ "]}".

Definition cut_url : string :=
  "https://cut.example/.well-known/openid-configuration".

(** A world in which the provider at [op_url] serves [minimal_json], and the
    one at [cut_url] starts a JSON object and drops the connection: the
    decoder meets the end of the stream with its target untouched, and closing
    the body reports the reset. *)
Definition testbed : world unit :=
  fun X c w =>
    match c in call X return X * unit with
    | os_Getenv _ => ("", w)
    | server_RunHTTP _ _ => (None, w)
    | http_NewRequest method url => (Ok (mkRequest method url Background), w)
    | client_Do _ req =>
        (if String.eqb (URL req) op_url then Ok (mkResponse 200 minimal_json)
         else if String.eqb (URL req) cut_url then Ok (mkResponse 200 "{")
         else Ok (mkResponse 200 "{}"), w)
    | json_Decode body into =>
        (if String.eqb body minimal_json then (minimal_document, None)
         else if String.eqb body "{}" then (into, None)
         else (into, Some (New "unexpected EOF")), w)
    | body_Close body =>
        (if String.eqb body "{"
         then Some (New "read: connection reset by peer")
         else None, w)
    end.

(** ** Contexts in time *)

(** A reading of [ctx.Err()] in every state of a world, and what net/http
    promises about it: the transport does not answer a request with a
    response once the request's context is cancelled or past its deadline, it
    fails the request.  The state after the call is the moment the transport
    answers. *)
Definition honours_context {W : Type} (h : world W)
    (ctx_Err : W -> Context -> option error) : Prop :=
  forall (c : Client) (req : Request) (w : W),
    ctx_Err (snd (h _ (client_Do c req) w)) (req_ctx req) <> None ->
    exists e, fst (h _ (client_Do c req) w) = Err e.

(** [ctx.Err()] at time [t] (in nanoseconds) for contexts made at time 0 whose
    cancel functions are never called. *)
Fixpoint Err_at (t : Z) (ctx : Context) : option error :=
  match ctx with
  | Background => None
  | WithCancel parent => Err_at t parent
  | WithTimeout parent nanos =>
      match Err_at t parent with
      | Some e => Some e
      | None =>
          if (nanos <=? t)%Z then Some context_DeadlineExceeded else None
      end
  end.

Definition second : Z := 1000000000.

(** The state of a world that keeps time: the time, and the context of the
    request whose response body is being read. *)
Record Clock : Type := mkClock {
  now : Z;
  body_ctx : Context
}.

Definition clock_Err (w : Clock) (ctx : Context) : option error :=
  Err_at (now w) ctx.

(** A world that keeps time.  Response headers take one second to arrive,
    ten from the provider at [slow_url]; reading a body takes ten seconds.
    The transport and the body both give up with the context's error once the
    request's context is done. *)
Definition wall_clock : world Clock :=
  fun X c w =>
    match c in call X return X * Clock with
    | os_Getenv _ => ("", w)
    | server_RunHTTP _ _ => (None, w)
    | http_NewRequest method url => (Ok (mkRequest method url Background), w)
    | client_Do _ req =>
        let t := (now w + (if String.eqb (URL req) slow_url
                           then 10 * second else 1 * second))%Z in
        match Err_at t (req_ctx req) with
        | Some e => (Err (Wrap e "Get"), mkClock t (body_ctx w))
        | None => (Ok (mkResponse 200 minimal_json), mkClock t (req_ctx req))
        end
    | json_Decode body into =>
        let t := (now w + 10 * second)%Z in
        match Err_at t (body_ctx w) with
        | Some e => ((into, Some e), mkClock t (body_ctx w))
        | None =>
            (if String.eqb body minimal_json then (minimal_document, None)
             else (into, Some (New "unexpected EOF")), mkClock t (body_ctx w))
        end
    | body_Close _ => (None, w)
    end.

(** Calls answered with a 200 response; only their bodies are decoded. *)
Definition is_ok_response (ev : event) : bool :=
  match ev with
  | EvDo _ _ (Ok resp) => Z.eqb (StatusCode resp) http_StatusOK
  | _ => false
  end.

(** * Properties *)

(** ** Tests on strings and slices *)

Lemma is_empty_true (s : string) : is_empty s = true <-> s = "".
Proof. destruct s; simpl; split; congruence. Qed.

Lemma is_empty_false (s : string) : is_empty s = false <-> s <> "".
Proof. destruct s; simpl; split; congruence. Qed.

Lemma len_is_zero_true (xs : list string) : len_is_zero xs = true <-> xs = [].
Proof. destruct xs; cbv [len_is_zero length Nat.eqb]; split; congruence. Qed.

Lemma len_is_zero_false (xs : list string) : len_is_zero xs = false <-> xs <> [].
Proof. destruct xs; cbv [len_is_zero length Nat.eqb]; split; congruence. Qed.

(** [Valid] as a boolean conjunction of its six tests. *)
Lemma Valid_nil_tests (c : Configuration) :
  Valid c = None <->
  is_empty (Issuer c) = false /\
  is_empty (AuthorizationEndpoint c) = false /\
  is_empty (JWKSURI c) = false /\
  len_is_zero (ResponseTypesSupported c) = false /\
  len_is_zero (SubjectTypesSupported c) = false /\
  len_is_zero (IDTokenSigningAlgValuesSupported c) = false.
Proof.
  unfold Valid.
  destruct (is_empty (Issuer c)), (is_empty (AuthorizationEndpoint c)),
    (is_empty (JWKSURI c)), (len_is_zero (ResponseTypesSupported c)),
    (len_is_zero (SubjectTypesSupported c)),
    (len_is_zero (IDTokenSigningAlgValuesSupported c));
    split; intros H; try discriminate; try reflexivity;
    try (repeat split; reflexivity);
    decompose [and] H; discriminate.
Qed.

(** C5. [Valid] returns nil exactly when the three required strings are
    non-empty and the three required lists are non-empty; two configurations
    that agree on these six fields get the same verdict, whatever their other
    fields (TokenEndpoint among them) hold. *)
Theorem Valid_nil_iff_six_required_fields :
  (forall c : Configuration,
      Valid c = None <->
      (Issuer c <> "" /\ AuthorizationEndpoint c <> "" /\ JWKSURI c <> "" /\
       ResponseTypesSupported c <> [] /\ SubjectTypesSupported c <> [] /\
       IDTokenSigningAlgValuesSupported c <> []))
  /\
  (forall c1 c2 : Configuration,
      Issuer c1 = Issuer c2 ->
      AuthorizationEndpoint c1 = AuthorizationEndpoint c2 ->
      JWKSURI c1 = JWKSURI c2 ->
      ResponseTypesSupported c1 = ResponseTypesSupported c2 ->
      SubjectTypesSupported c1 = SubjectTypesSupported c2 ->
      IDTokenSigningAlgValuesSupported c1 = IDTokenSigningAlgValuesSupported c2 ->
      Valid c1 = Valid c2).
Proof.
  split.
  - intros c. rewrite Valid_nil_tests.
    rewrite !is_empty_false, !len_is_zero_false. reflexivity.
  - intros c1 c2 H1 H2 H3 H4 H5 H6. unfold Valid.
    rewrite H1, H2, H3, H4, H5, H6. reflexivity.
Qed.

Lemma Valid_nil_iff_six_required_fields_witness :
  (Valid minimal_document = None /\
   TokenEndpoint minimal_document <> TokenEndpoint implicit_only_document)
  /\ Valid minimal_document = Valid implicit_only_document.
Proof.
  split.
  - split; [| discriminate].
    apply (proj1 Valid_nil_iff_six_required_fields minimal_document).
    repeat split; discriminate.
  - apply (proj2 Valid_nil_iff_six_required_fields
             minimal_document implicit_only_document); reflexivity.
Defined.

(** ** Defaults *)

(** C8. Filling the defaults a second time changes nothing. *)
Theorem FillDefaultValuesIfEmpty_idempotent (c : Configuration) :
  FillDefaultValuesIfEmpty (FillDefaultValuesIfEmpty c)
  = FillDefaultValuesIfEmpty c.
Proof.
  destruct c as [i a t u j r sc rt rm gt ac st ia ie us ua ue os oa oe tm ts
                 dv ct cs sd cl ul cp rp ru rr op ot].
  destruct rm, gt, tm, ru; reflexivity.
Qed.

(** What [FillDefaultValuesIfEmpty] leaves in the four fields it may write. *)
Lemma FillDefaultValuesIfEmpty_written (c : Configuration) :
  ResponseModesSupported (FillDefaultValuesIfEmpty c)
  = (if len_is_zero (ResponseModesSupported c)
     then ["query"; "fragment"] else ResponseModesSupported c) /\
  GrantTypesSupported (FillDefaultValuesIfEmpty c)
  = (if len_is_zero (GrantTypesSupported c)
     then ["authorization_code"; "implicit"] else GrantTypesSupported c) /\
  TokenEndpointAuthMethodsSupported (FillDefaultValuesIfEmpty c)
  = (if len_is_zero (TokenEndpointAuthMethodsSupported c)
     then ["client_secret_basic"] else TokenEndpointAuthMethodsSupported c) /\
  RequestURIParameterSupported (FillDefaultValuesIfEmpty c)
  = (match RequestURIParameterSupported c with
     | None => Some true
     | Some b => Some b
     end).
Proof.
  destruct c as [i a t u j r sc rt rm gt ac st ia ie us ua ue os oa oe tm ts
                 dv ct cs sd cl ul cp rp ru rr op ot].
  destruct rm, gt, tm, ru; repeat split; reflexivity.
Qed.

(** The six fields [Valid] reads are not among those written. *)
Lemma FillDefaultValuesIfEmpty_required (c : Configuration) :
  Issuer (FillDefaultValuesIfEmpty c) = Issuer c /\
  AuthorizationEndpoint (FillDefaultValuesIfEmpty c) = AuthorizationEndpoint c /\
  JWKSURI (FillDefaultValuesIfEmpty c) = JWKSURI c /\
  ResponseTypesSupported (FillDefaultValuesIfEmpty c) = ResponseTypesSupported c /\
  SubjectTypesSupported (FillDefaultValuesIfEmpty c) = SubjectTypesSupported c /\
  IDTokenSigningAlgValuesSupported (FillDefaultValuesIfEmpty c)
  = IDTokenSigningAlgValuesSupported c.
Proof.
  destruct c as [i a t u j r sc rt rm gt ac st ia ie us ua ue os oa oe tm ts
                 dv ct cs sd cl ul cp rp ru rr op ot].
  destruct rm, gt, tm, ru; repeat split; reflexivity.
Qed.

Lemma Valid_FillDefaultValuesIfEmpty (c : Configuration) :
  Valid (FillDefaultValuesIfEmpty c) = Valid c.
Proof.
  destruct (FillDefaultValuesIfEmpty_required c)
    as (H1 & H2 & H3 & H4 & H5 & H6).
  unfold Valid. rewrite H1, H2, H3, H4, H5, H6. reflexivity.
Qed.

(** C9. [FillDefaultValuesIfEmpty] leaves every field other than
    ResponseModesSupported, GrantTypesSupported,
    TokenEndpointAuthMethodsSupported and RequestURIParameterSupported as it
    was, and [Valid] gives the same verdict after the call as before. *)
Theorem FillDefaultValuesIfEmpty_frame (c : Configuration) :
  let c' := FillDefaultValuesIfEmpty c in
  (Issuer c' = Issuer c /\
   AuthorizationEndpoint c' = AuthorizationEndpoint c /\
   TokenEndpoint c' = TokenEndpoint c /\
   UserInfoEndpoint c' = UserInfoEndpoint c /\
   JWKSURI c' = JWKSURI c /\
   RegistrationEndpoint c' = RegistrationEndpoint c /\
   ScopesSupported c' = ScopesSupported c /\
   ResponseTypesSupported c' = ResponseTypesSupported c /\
   ACRValuesSupported c' = ACRValuesSupported c /\
   SubjectTypesSupported c' = SubjectTypesSupported c /\
   IDTokenSigningAlgValuesSupported c' = IDTokenSigningAlgValuesSupported c /\
   IDTokenEncryptionEncValuesSupported c'
   = IDTokenEncryptionEncValuesSupported c /\
   UserInfoSigningAlgValuesSupported c' = UserInfoSigningAlgValuesSupported c /\
   UserInfoEncryptionAlgValuesSupported c'
   = UserInfoEncryptionAlgValuesSupported c /\
   UserInfoEncryptionEncValuesSupported c'
   = UserInfoEncryptionEncValuesSupported c /\
   RequestObjectSigningAlgValuesSupported c'
   = RequestObjectSigningAlgValuesSupported c /\
   RequestObjectEncryptionAlgValuesSupported c'
   = RequestObjectEncryptionAlgValuesSupported c /\
   RequestObjectEncryptionEncValuesSupported c'
   = RequestObjectEncryptionEncValuesSupported c /\
   TokenEndpointAuthSigningAlgValuesSupported c'
   = TokenEndpointAuthSigningAlgValuesSupported c /\
   DisplayValuesSupported c' = DisplayValuesSupported c /\
   ClaimTypesSupported c' = ClaimTypesSupported c /\
   ClaimsSupported c' = ClaimsSupported c /\
   ServiceDocumentation c' = ServiceDocumentation c /\
   ClaimsLocalesSupported c' = ClaimsLocalesSupported c /\
   UILocalesSupported c' = UILocalesSupported c /\
   ClaimsParameterSupported c' = ClaimsParameterSupported c /\
   RequestParameterSupported c' = RequestParameterSupported c /\
   RequireRequestURIRegistration c' = RequireRequestURIRegistration c /\
   OpPolicyURI c' = OpPolicyURI c /\
   OpTOSURI c' = OpTOSURI c)
  /\ Valid c' = Valid c.
Proof.
  split; [| apply Valid_FillDefaultValuesIfEmpty].
  destruct c as [i a t u j r sc rt rm gt ac st ia ie us ua ue os oa oe tm ts
                 dv ct cs sd cl ul cp rp ru rr op ot].
  destruct rm, gt, tm, ru; repeat split; reflexivity.
Qed.

(** ** Runs of [GetOpenIDConnectConfiguration] *)

(** Every run returns, and goes one of the five ways. *)
Lemma run_walk {W : Type} (h : world W) (w : W)
    (ctx : Context) (client : option Client) (url : string) :
  exists tr results,
    run h (GetOpenIDConnectConfiguration ctx client url) w
    = (tr, Returned results)
    /\ walk ctx (client_used client) url tr results.
Proof.
  unfold GetOpenIDConnectConfiguration.
  assert (Hc : (match client with None => http_DefaultClient | Some _ => client end)
               = Some (client_used client)) by (destruct client; reflexivity).
  rewrite Hc. cbn.
  destruct (h _ (http_NewRequest http_MethodGet url) w) as [[req | e] w1]; cbn.
  2: { eexists _, _. split; [reflexivity | constructor]. }
  destruct (h _ (client_Do (client_used client) (WithContext req ctx)) w1)
    as [[resp | e] w2]; cbn.
  2: { eexists _, _. split; [reflexivity | constructor]. }
  destruct (Z.eqb (StatusCode resp) http_StatusOK) eqn:Hs; cbn.
  - apply Z.eqb_eq in Hs.
    destruct (h _ (json_Decode (Body resp) zeroConfiguration) w2)
      as [[config [e |]] w3]; cbn;
      destruct (h _ (body_Close (Body resp)) w3) as [[e' |] w4]; cbn;
      eexists _, _; (split; [reflexivity |]).
    + apply (walk_bad_body ctx _ url req resp config e (Some e') Hs).
    + apply (walk_bad_body ctx _ url req resp config e None Hs).
    + apply (walk_decoded ctx _ url req resp config (Some e') Hs).
    + apply (walk_decoded ctx _ url req resp config None Hs).
  - apply Z.eqb_neq in Hs.
    destruct (h _ (body_Close (Body resp)) w2) as [[e' |] w3]; cbn;
      eexists _, _; (split; [reflexivity |]).
    + apply (walk_bad_status ctx _ url req resp (Some e') Hs).
    + apply (walk_bad_status ctx _ url req resp None Hs).
Qed.

(** A provider whose discovery path is missing: the status is reported, the
    body is closed and never decoded. *)
Example run_against_missing_document :
  run internet (GetOpenIDConnectConfiguration Background None gone_url) tt
  = ([EvNewRequest "GET" gone_url (Ok (mkRequest "GET" gone_url Background));
      EvDo TheDefaultClient (mkRequest "GET" gone_url Background)
           (Ok (mkResponse 404 "404 page not found"));
      EvClose "404 page not found" None],
     Returned (zeroConfiguration,
               Some (Errorf_d "authproxy:oidc received non-200 status code: %d"
                              404))).
Proof. reflexivity. Qed.

(** A run is determined by the program and the world, so a run with known
    results is the walk that [run_walk] finds. *)
Lemma run_inv {W : Type} (h : world W) (w : W)
    (ctx : Context) (client : option Client) (url : string)
    (tr : list event) (o : outcome (Configuration * option error)) :
  run h (GetOpenIDConnectConfiguration ctx client url) w = (tr, o) ->
  exists results,
    o = Returned results /\ walk ctx (client_used client) url tr results.
Proof.
  intros H. destruct (run_walk h w ctx client url) as (tr' & r & Hrun & Hwalk).
  rewrite Hrun in H. injection H as <- <-. exists r. split; [reflexivity | exact Hwalk].
Qed.

(** Membership of an event in a short explicit log. *)
Ltac in_log :=
  repeat match goal with
         | H : In _ (_ :: _) |- _ => destruct H as [H | H]
         | H : In _ [] |- _ => destruct H
         | H : _ \/ _ |- _ => destruct H as [H | H]
         | H : False |- _ => destruct H
         | H : @eq event _ _ |- _ =>
             first [discriminate H | inversion H; clear H; subst]
         end.

(** The request handed to the transport always carries the caller's context,
    and is sent with the caller's client (the default one for a nil pointer). *)
Lemma Do_carries_context {W : Type} (h : world W) (w : W)
    (ctx : Context) (client : option Client) (url : string)
    (tr : list event) (o : outcome (Configuration * option error))
    (c : Client) (req : Request) (res : result Response) :
  run h (GetOpenIDConnectConfiguration ctx client url) w = (tr, o) ->
  In (EvDo c req res) tr ->
  req_ctx req = ctx /\ c = client_used client.
Proof.
  intros Hrun Hin. destruct (run_inv _ _ _ _ _ _ _ Hrun) as (r & -> & Hw).
  inversion Hw; subst; in_log; subst; split; reflexivity.
Qed.

(** A nil error comes only from the walk that decodes and closes cleanly. *)
Lemma run_success_inv {W : Type} (h : world W) (w : W)
    (ctx : Context) (client : option Client) (url : string)
    (tr : list event) (config : Configuration) :
  run h (GetOpenIDConnectConfiguration ctx client url) w
  = (tr, Returned (config, None)) ->
  exists body document,
    In (EvDecode body zeroConfiguration (document, None)) tr /\
    config = FillDefaultValuesIfEmpty document.
Proof.
  intros Hrun. destruct (run_inv _ _ _ _ _ _ _ Hrun) as (r & Hr & Hw).
  injection Hr as <-.
  inversion Hw as [ | | ? ? ec ? | ? ? ? ? ec ? | ? ? doc ec ? ]; subst;
    try (destruct ec; discriminate).
  exists (Body resp), doc. split; [simpl; tauto | reflexivity].
Qed.

(** C1 (as amended). [GetOpenIDConnectConfiguration] does not validate: when
    it returns a nil error, the configuration is the decoded document with the
    defaults filled in, and [Valid] gives on it the verdict it gives on the
    decoded document. *)
Theorem GetOpenIDConnectConfiguration_success_is_filled_document
    {W : Type} (h : world W) (w : W)
    (ctx : Context) (client : option Client) (url : string)
    (tr : list event) (config : Configuration) :
  run h (GetOpenIDConnectConfiguration ctx client url) w
  = (tr, Returned (config, None)) ->
  exists body document,
    In (EvDecode body zeroConfiguration (document, None)) tr /\
    config = FillDefaultValuesIfEmpty document /\
    Valid config = Valid document.
Proof.
  intros Hrun.
  destruct (run_success_inv h w ctx client url tr config Hrun)
    as (body & doc & Hin & ->).
  exists body, doc. split; [exact Hin |].
  split; [reflexivity | apply Valid_FillDefaultValuesIfEmpty].
Qed.

Lemma GetOpenIDConnectConfiguration_success_is_filled_document_witness :
  let tr :=
    [EvNewRequest "GET" op_url (Ok (mkRequest "GET" op_url Background));
     EvDo TheDefaultClient (mkRequest "GET" op_url Background)
          (Ok (mkResponse 200 "{}"));
     EvDecode "{}" zeroConfiguration (zeroConfiguration, None);
     EvClose "{}" None] in
  run internet (GetOpenIDConnectConfiguration Background None op_url) tt
  = (tr, Returned (FillDefaultValuesIfEmpty zeroConfiguration, None))
  /\
  exists body document,
    In (EvDecode body zeroConfiguration (document, None)) tr /\
    FillDefaultValuesIfEmpty zeroConfiguration
    = FillDefaultValuesIfEmpty document /\
    Valid (FillDefaultValuesIfEmpty zeroConfiguration) = Valid document.
Proof.
  split; [reflexivity |].
  apply (GetOpenIDConnectConfiguration_success_is_filled_document
           internet tt Background None op_url).
  reflexivity.
Defined.

(** C1 (as stated) fails: the provider at [op_url] answers 200 with the empty
    JSON object; the call returns a nil error, and [Valid] rejects what it
    returned. *)
Lemma GetOpenIDConnectConfiguration_returns_invalid_configuration :
  snd (run internet (GetOpenIDConnectConfiguration Background None op_url) tt)
  = Returned (FillDefaultValuesIfEmpty zeroConfiguration, None)
  /\ Valid (FillDefaultValuesIfEmpty zeroConfiguration)
     = Some (New "authproxy/oidc: issuer is empty").
Proof. split; reflexivity. Qed.

(** C3 (as amended). Every call returns, and it returns a non-nil error in
    exactly five cases: the request cannot be created from the URL, the
    transport call fails, the status is not 200, the body cannot be decoded,
    or closing the response body fails.  In the first three the configuration
    returned alongside is the zero value. *)
Theorem GetOpenIDConnectConfiguration_error_iff_five_cases
    {W : Type} (h : world W) (w : W)
    (ctx : Context) (client : option Client) (url : string) :
  exists tr config err,
    run h (GetOpenIDConnectConfiguration ctx client url) w
    = (tr, Returned (config, err))
    /\ (err <> None <->
        request_creation_failed tr \/ transport_failed tr \/ status_not_ok tr
        \/ body_undecodable tr \/ close_failed tr)
    /\ (request_creation_failed tr \/ transport_failed tr \/ status_not_ok tr ->
        config = zeroConfiguration).
Proof.
  destruct (run_walk h w ctx client url) as (tr & [config err] & Hrun & Hw).
  exists tr, config, err. split; [exact Hrun |].
  split.
  2: { unfold request_creation_failed, transport_failed, status_not_ok.
       inversion Hw as [ e | req e | req resp ec Hs | req resp doc e ec Hs
                       | req resp doc ec Hs ]; subst; try reflexivity;
         intros [(m & u & e' & H) | [(c & r & e' & H) | (c & r & rs & H & Hne)]];
         in_log; exfalso; apply Hne; assumption. }
  unfold request_creation_failed, transport_failed, status_not_ok,
    body_undecodable, close_failed.
  inversion Hw as [ e | req e | req resp ec Hs | req resp doc e ec Hs
                  | req resp doc ec Hs ]; subst.
  - split; [intros _ | intros _; discriminate].
    left. exists http_MethodGet, url, e. simpl; tauto.
  - split; [intros _ | intros _; discriminate].
    right; left. exists (client_used client), (WithContext req ctx), e.
    simpl; tauto.
  - split; [intros _ | intros _; destruct ec; discriminate].
    right; right; left.
    exists (client_used client), (WithContext req ctx), resp.
    split; [simpl; tauto | exact Hs].
  - split; [intros _ | intros _; destruct ec; discriminate].
    right; right; right; left.
    exists (Body resp), zeroConfiguration, config, e. simpl; tauto.
  - destruct ec as [e |]; simpl.
    + split; [intros _ | intros _; discriminate].
      right; right; right; right. exists (Body resp), e. simpl; tauto.
    + split; [intros H; exfalso; apply H; reflexivity |].
      intros [(m & u & e & H) | [(c & r & e & H) | [(c & r & rs & H & Hne)
             | [(b & i & d & e & H) | (b & e & H)]]]]; in_log.
      exfalso. apply Hne. assumption.
Qed.

(** C3 (as stated) fails: a URL without a scheme makes the call return an
    error although no transport call was made, no status was received and no
    body was decoded. *)
Lemma GetOpenIDConnectConfiguration_error_outside_three_cases :
  let r := run internet (GetOpenIDConnectConfiguration Background None bad_url) tt in
  snd r
  = Returned (zeroConfiguration,
              Some (Wrap (Wrap (New "missing protocol scheme") "parse")
                         "authproxy/oidc: couldn't create HTTP request"))
  /\ ~ (transport_failed (fst r) \/ status_not_ok (fst r)
        \/ body_undecodable (fst r)).
Proof.
  split; [reflexivity |].
  unfold transport_failed, status_not_ok, body_undecodable. cbn.
  intros [(c & r & e & H) | [(c & r & rs & H & _) | (b & i & d & e & H)]];
    in_log.
Qed.

(** C4. Each of the four defaultable fields is replaced exactly when it is
    empty (absent, for the pointer) and keeps the document's value otherwise;
    and a configuration returned with a nil error is the decoded document
    after this replacement, so it has all four fields set. *)
Theorem defaults_replace_exactly_the_empty_fields :
  (forall c : Configuration,
      let c' := FillDefaultValuesIfEmpty c in
      (ResponseModesSupported c = [] ->
       ResponseModesSupported c' = ["query"; "fragment"]) /\
      (ResponseModesSupported c <> [] ->
       ResponseModesSupported c' = ResponseModesSupported c) /\
      (GrantTypesSupported c = [] ->
       GrantTypesSupported c' = ["authorization_code"; "implicit"]) /\
      (GrantTypesSupported c <> [] ->
       GrantTypesSupported c' = GrantTypesSupported c) /\
      (TokenEndpointAuthMethodsSupported c = [] ->
       TokenEndpointAuthMethodsSupported c' = ["client_secret_basic"]) /\
      (TokenEndpointAuthMethodsSupported c <> [] ->
       TokenEndpointAuthMethodsSupported c' = TokenEndpointAuthMethodsSupported c) /\
      (RequestURIParameterSupported c = None ->
       RequestURIParameterSupported c' = Some true) /\
      (RequestURIParameterSupported c <> None ->
       RequestURIParameterSupported c' = RequestURIParameterSupported c))
  /\
  (forall (W : Type) (h : world W) (w : W) (ctx : Context)
          (client : option Client) (url : string)
          (tr : list event) (config : Configuration),
      run h (GetOpenIDConnectConfiguration ctx client url) w
      = (tr, Returned (config, None)) ->
      (exists body document,
          In (EvDecode body zeroConfiguration (document, None)) tr /\
          config = FillDefaultValuesIfEmpty document) /\
      ResponseModesSupported config <> [] /\
      GrantTypesSupported config <> [] /\
      TokenEndpointAuthMethodsSupported config <> [] /\
      RequestURIParameterSupported config <> None).
Proof.
  split.
  - intros c c'. subst c'.
    destruct (FillDefaultValuesIfEmpty_written c) as (H1 & H2 & H3 & H4).
    rewrite H1, H2, H3, H4.
    repeat split; intros H;
      try (rewrite H; reflexivity);
      try (apply len_is_zero_false in H; rewrite H; reflexivity).
    destruct (RequestURIParameterSupported c); [reflexivity | congruence].
  - intros W h w ctx client url tr config Hrun.
    destruct (run_success_inv h w ctx client url tr config Hrun)
      as (body & doc & Hin & ->).
    split; [exists body, doc; split; [exact Hin | reflexivity] |].
    destruct (FillDefaultValuesIfEmpty_written doc) as (H1 & H2 & H3 & H4).
    rewrite H1, H2, H3, H4.
    repeat split.
    + destruct (len_is_zero (ResponseModesSupported doc)) eqn:E;
        [discriminate | apply len_is_zero_false; exact E].
    + destruct (len_is_zero (GrantTypesSupported doc)) eqn:E;
        [discriminate | apply len_is_zero_false; exact E].
    + destruct (len_is_zero (TokenEndpointAuthMethodsSupported doc)) eqn:E;
        [discriminate | apply len_is_zero_false; exact E].
    + destruct (RequestURIParameterSupported doc); discriminate.
Qed.

Lemma defaults_replace_exactly_the_empty_fields_witness :
  let tr :=
    [EvNewRequest "GET" op_url (Ok (mkRequest "GET" op_url Background));
     EvDo TheDefaultClient (mkRequest "GET" op_url Background)
          (Ok (mkResponse 200 "{}"));
     EvDecode "{}" zeroConfiguration (zeroConfiguration, None);
     EvClose "{}" None] in
  let config := FillDefaultValuesIfEmpty zeroConfiguration in
  run internet (GetOpenIDConnectConfiguration Background None op_url) tt
  = (tr, Returned (config, None))
  /\
  ((exists body document,
       In (EvDecode body zeroConfiguration (document, None)) tr /\
       config = FillDefaultValuesIfEmpty document) /\
   ResponseModesSupported config <> [] /\
   GrantTypesSupported config <> [] /\
   TokenEndpointAuthMethodsSupported config <> [] /\
   RequestURIParameterSupported config <> None).
Proof.
  split; [reflexivity |].
  apply (proj2 defaults_replace_exactly_the_empty_fields
           unit internet tt Background None op_url).
  reflexivity.
Defined.

(** The world that keeps time keeps the promise of net/http. *)
Lemma wall_clock_honours_context : honours_context wall_clock clock_Err.
Proof.
  intros c req w. unfold clock_Err, wall_clock. cbv zeta.
  remember (now w + (if String.eqb (URL req) slow_url
                     then 10 * second else 1 * second))%Z as t.
  destruct (Err_at t (req_ctx req)) as [e |] eqn:E; cbn [fst snd now].
  - intros _. exists (Wrap e "Get"). reflexivity.
  - intros H. exfalso. apply H. exact E.
Qed.

(** C6 (as amended). In a world whose transport honours contexts, when the
    request can be created and the caller's context is cancelled or past its
    deadline by the time the transport answers, the request was sent carrying
    that context, nothing is decoded or closed, and the call returns the zero
    configuration with the transport's error wrapped as a failed HTTP
    request. *)
Theorem GetOpenIDConnectConfiguration_abandoned_request
    {W : Type} (h : world W) (ctx_Err : W -> Context -> option error) (w : W)
    (ctx : Context) (client : option Client) (url : string)
    (created : Request) (w1 : W) :
  honours_context h ctx_Err ->
  h _ (http_NewRequest http_MethodGet url) w = (Ok created, w1) ->
  ctx_Err (snd (h _ (client_Do (client_used client) (WithContext created ctx)) w1))
          ctx <> None ->
  exists e,
    run h (GetOpenIDConnectConfiguration ctx client url) w
    = ([EvNewRequest http_MethodGet url (Ok created);
        EvDo (client_used client) (WithContext created ctx) (Err e)],
       Returned (zeroConfiguration,
                 Some (Wrap e "authproxy/oidc: HTTP request failed"))).
Proof.
  intros Hhon Hnew Hdone.
  destruct (Hhon (client_used client) (WithContext created ctx) w1 Hdone)
    as [e He].
  exists e. unfold GetOpenIDConnectConfiguration.
  assert (Hc : (match client with None => http_DefaultClient | Some _ => client end)
               = Some (client_used client)) by (destruct client; reflexivity).
  rewrite Hc. cbn. rewrite Hnew. cbn.
  destruct (h _ (client_Do (client_used client) (WithContext created ctx)) w1)
    as [res w2].
  cbn in He. subst res. reflexivity.
Qed.

Lemma GetOpenIDConnectConfiguration_abandoned_request_witness :
  let ctx := WithTimeout Background (5 * second) in
  let created := mkRequest "GET" slow_url Background in
  let start := mkClock 0 Background in
  (honours_context wall_clock clock_Err
   /\ wall_clock _ (http_NewRequest http_MethodGet slow_url) start
      = (Ok created, start)
   /\ clock_Err
        (snd (wall_clock _ (client_Do (client_used None)
                                      (WithContext created ctx)) start))
        ctx <> None)
  /\
  exists e,
    run wall_clock (GetOpenIDConnectConfiguration ctx None slow_url) start
    = ([EvNewRequest http_MethodGet slow_url (Ok created);
        EvDo (client_used None) (WithContext created ctx) (Err e)],
       Returned (zeroConfiguration,
                 Some (Wrap e "authproxy/oidc: HTTP request failed"))).
Proof.
  intros ctx created start.
  assert (Hdone : clock_Err
                    (snd (wall_clock _ (client_Do (client_used None)
                                                  (WithContext created ctx)) start))
                    ctx <> None) by discriminate.
  split; [split; [exact wall_clock_honours_context | split; [reflexivity | exact Hdone]] |].
  apply (GetOpenIDConnectConfiguration_abandoned_request
           wall_clock clock_Err start ctx None slow_url created start
           wall_clock_honours_context eq_refl Hdone).
Defined.

(** C6 (as stated) fails: with a five second timeout, the headers from
    [op_url] arrive after one second and the deadline passes while the body
    is read; the transport kept its promise, the context has timed out, and
    the error returned is the decode failure, not a transport failure. *)
Lemma GetOpenIDConnectConfiguration_deadline_during_body_read :
  let ctx := WithTimeout Background (5 * second) in
  let err := Wrap context_DeadlineExceeded
                  "authproxy/oidc: couldn't decode HTTP response body to JSON" in
  honours_context wall_clock clock_Err
  /\ run wall_clock (GetOpenIDConnectConfiguration ctx None op_url)
         (mkClock 0 Background)
     = ([EvNewRequest "GET" op_url (Ok (mkRequest "GET" op_url Background));
         EvDo TheDefaultClient (mkRequest "GET" op_url ctx)
              (Ok (mkResponse 200 minimal_json));
         EvDecode minimal_json zeroConfiguration
                  (zeroConfiguration, Some context_DeadlineExceeded);
         EvClose minimal_json None],
        Returned (zeroConfiguration, Some err))
  /\ clock_Err (mkClock (11 * second) ctx) ctx = Some context_DeadlineExceeded
  /\ is_transport_failure (Some err) = false.
Proof.
  split; [exact wall_clock_honours_context |].
  repeat split.
Qed.

(** A failure that comes later, while the body is read, takes the other
    road: if the decoder reports an error and has not touched its target, the
    call still returns an error and the zero value. *)
Lemma body_read_failure_returns_zero_value
    {W : Type} (h : world W) (w : W)
    (ctx : Context) (client : option Client) (url : string)
    (tr : list event) (o : outcome (Configuration * option error))
    (body : ReadCloser) (into : Configuration) (e : error) :
  run h (GetOpenIDConnectConfiguration ctx client url) w = (tr, o) ->
  In (EvDecode body into (into, Some e)) tr ->
  exists err, o = Returned (zeroConfiguration, Some err).
Proof.
  intros Hrun Hin. destruct (run_inv _ _ _ _ _ _ _ Hrun) as (r & -> & Hw).
  inversion Hw as [ e0 | req0 e0 | req0 resp ec Hs | req0 resp doc e0 ec Hs
                  | req0 resp doc ec Hs ]; subst; in_log.
  destruct ec; simpl; eexists; reflexivity.
Qed.

(** Once the request is created it is sent, with the client the call uses,
    and the log records the answer of the world. *)
Lemma run_sends {W : Type} (h : world W) (w : W)
    (ctx : Context) (client : option Client) (url : string)
    (created : Request) (w1 : W) :
  h _ (http_NewRequest http_MethodGet url) w = (Ok created, w1) ->
  In (EvDo (client_used client) (WithContext created ctx)
           (fst (h _ (client_Do (client_used client) (WithContext created ctx)) w1)))
     (fst (run h (GetOpenIDConnectConfiguration ctx client url) w)).
Proof.
  intros Hnew. unfold GetOpenIDConnectConfiguration.
  assert (Hc : (match client with None => http_DefaultClient | Some _ => client end)
               = Some (client_used client)) by (destruct client; reflexivity).
  rewrite Hc. cbn. rewrite Hnew. cbn.
  destruct (h _ (client_Do (client_used client) (WithContext created ctx)) w1)
    as [res w2]; cbn.
  match goal with
  | |- context [run h ?p w2] => destruct (run h p w2) as [tr o]
  end.
  cbn. right; left; reflexivity.
Qed.

(** C10. A nil client is replaced by the default client before anything is
    sent: the call with nil is the call with [http.DefaultClient], it never
    panics, whatever it sends goes through the default client, and once the
    request is created it is sent through the default client. *)
Theorem GetOpenIDConnectConfiguration_nil_client (ctx : Context) (url : string) :
  GetOpenIDConnectConfiguration ctx None url
  = GetOpenIDConnectConfiguration ctx http_DefaultClient url
  /\
  forall (W : Type) (h : world W) (w : W),
    run h (GetOpenIDConnectConfiguration ctx None url) w
    = run h (GetOpenIDConnectConfiguration ctx http_DefaultClient url) w
    /\
    exists tr results,
      run h (GetOpenIDConnectConfiguration ctx None url) w
      = (tr, Returned results)
      /\ (forall c req res, In (EvDo c req res) tr -> c = TheDefaultClient)
      /\ (forall created w1,
             h _ (http_NewRequest http_MethodGet url) w = (Ok created, w1) ->
             In (EvDo TheDefaultClient (WithContext created ctx)
                      (fst (h _ (client_Do TheDefaultClient
                                           (WithContext created ctx)) w1)))
                tr).
Proof.
  split; [reflexivity |].
  intros W h w. split; [reflexivity |].
  destruct (run_walk h w ctx None url) as (tr & r & Hrun & Hw).
  exists tr, r. split; [exact Hrun |]. split.
  - intros c req res Hin.
    apply (Do_carries_context h w ctx None url tr _ c req res Hrun Hin).
  - intros created w1 Hnew.
    pose proof (run_sends h w ctx None url created w1 Hnew) as Hsent.
    rewrite Hrun in Hsent. exact Hsent.
Qed.

Lemma GetOpenIDConnectConfiguration_nil_client_witness :
  internet _ (http_NewRequest http_MethodGet op_url) tt
  = (Ok (mkRequest "GET" op_url Background), tt)
  /\
  exists tr results,
    run internet (GetOpenIDConnectConfiguration Background None op_url) tt
    = (tr, Returned results)
    /\ In (EvDo TheDefaultClient (mkRequest "GET" op_url Background)
                (Ok (mkResponse 200 "{}"))) tr.
Proof.
  split; [reflexivity |].
  destruct (proj2 (GetOpenIDConnectConfiguration_nil_client Background op_url)
                  unit internet tt)
    as (_ & tr & results & Hrun & _ & Hsent).
  exists tr, results. split; [exact Hrun |].
  exact (Hsent (mkRequest "GET" op_url Background) tt eq_refl).
Defined.

(** ** Startup *)

(** C2 (as amended). [main] performs no discovery: in every world it reads
    PORT, calls [server.RunHTTP] with that port and the echo upstream, and
    panics exactly when that call returns an error; no HTTP request is sent
    and no document is decoded before or after. *)
Theorem main_serves_without_discovery {W : Type} (h : world W) (w : W) :
  exists port err,
    run h main w
    = ([EvGetenv "PORT" port; EvRunHTTP port upstream_Echo err],
       match err with Some e => Panicked e | None => Returned tt end)
    /\ existsb is_fetch (fst (run h main w)) = false
    /\ existsb discovery_succeeded (fst (run h main w)) = false.
Proof.
  unfold main. cbn.
  destruct (h _ (os_Getenv "PORT") w) as [port w1]; cbn.
  destruct (h _ (server_RunHTTP port upstream_Echo) w1) as [[e |] w2]; cbn.
  - exists port, (Some e). repeat split.
  - exists port, None. repeat split.
Qed.

(** C2 (as stated) fails: with PORT set to 8080, [main] serves although
    nothing was fetched, so the log is not one of a gated startup. *)
Lemma main_is_not_gated :
  let tr := fst (run internet main tt) in
  tr = [EvGetenv "PORT" "8080";
        EvRunHTTP "8080" upstream_Echo (Some (New "http: Server closed"))]
  /\ existsb is_serve tr = true
  /\ existsb is_fetch tr = false
  /\ gated false tr = false.
Proof. repeat split. Qed.

(** ** The login callback *)

(** A callback that does not match is answered the same way whatever it
    carries, and leaves the session alone. *)
Lemma Callback_mismatch (exchange : option string -> option Gate.Tokens)
    (sess : Gate.Session) (req : Gate.CallbackRequest) :
  Gate.state_matches (Gate.state sess) (Gate.cb_state req) = false ->
  Gate.Callback exchange sess req
  = (sess, Gate.GenericError, Some Gate.StateMismatch).
Proof. intros H. unfold Gate.Callback. rewrite H. reflexivity. Qed.

(** A callback that succeeds carried the stored state, and leaves none
    stored. *)
Lemma Callback_success_consumes
    (exchange : option string -> option Gate.Tokens)
    (sess sess' : Gate.Session) (req : Gate.CallbackRequest) (location : string) :
  Gate.Callback exchange sess req = (sess', Gate.SeeOther location, None) ->
  Gate.state sess' = None /\
  exists s, Gate.cb_state req = Some s /\ Gate.state sess = Some s.
Proof.
  unfold Gate.Callback. intros H.
  destruct (Gate.state_matches (Gate.state sess) (Gate.cb_state req)) eqn:Hm;
    [| discriminate].
  destruct (is_some (Gate.cb_error req)); [discriminate |].
  destruct (exchange (Gate.cb_code req)); [| discriminate].
  injection H as <- _. split; [reflexivity |].
  unfold Gate.state_matches in Hm.
  destruct (Gate.state sess) as [s |]; [| discriminate].
  destruct (Gate.cb_state req) as [r |]; [| discriminate].
  apply String.eqb_eq in Hm. subst r. exists s. split; reflexivity.
Qed.

(** A callback stores no state: it leaves the stored one or clears it. *)
Lemma Callback_state (exchange : option string -> option Gate.Tokens)
    (sess : Gate.Session) (req : Gate.CallbackRequest) :
  Gate.state (fst (fst (Gate.Callback exchange sess req))) = Gate.state sess
  \/ Gate.state (fst (fst (Gate.Callback exchange sess req))) = None.
Proof.
  unfold Gate.Callback.
  destruct (negb _); [left; reflexivity |].
  destruct (is_some _); [right; reflexivity |].
  destruct (exchange _); right; reflexivity.
Qed.

(** No two generated states are equal. *)
Lemma nonce_injective (n m : nat) : Gate.nonce n = Gate.nonce m -> n = m.
Proof.
  revert m. induction n as [| n IH]; intros [| m] H; simpl in H;
    try reflexivity; try discriminate.
  injection H as H. f_equal. apply IH. exact H.
Qed.

(** The state a flow has stored is one of those generated for it, and steps
    generate onwards: if the stored state, when there is one, has a number in
    [k, issued), the same is true after any steps. *)
Lemma after_stores_issued (login : Gate.Login) (k : nat)
    (steps : list Gate.Step) :
  forall flow : Gate.Flow,
    k <= Gate.issued flow ->
    (forall s, Gate.state (Gate.session flow) = Some s ->
               exists m, k <= m < Gate.issued flow /\ s = Gate.nonce m) ->
    k <= Gate.issued (Gate.after login flow steps) /\
    (forall s, Gate.state (Gate.session (Gate.after login flow steps)) = Some s ->
               exists m, k <= m < Gate.issued (Gate.after login flow steps)
                         /\ s = Gate.nonce m).
Proof.
  induction steps as [| st steps IH]; intros flow Hk Hinv; simpl.
  - split; assumption.
  - apply IH.
    + destruct st; simpl; lia.
    + destruct st as [url | exchange req]; simpl.
      * intros s Hs. injection Hs as <-.
        exists (Gate.issued flow). split; [lia | reflexivity].
      * intros s Hs.
        destruct (Callback_state exchange (Gate.session flow) req) as [E | E];
          rewrite E in Hs; [apply Hinv; exact Hs | discriminate].
Qed.

Lemma state_matches_stored (stored : option string) (s : string) :
  stored <> Some s -> Gate.state_matches stored (Some s) = false.
Proof.
  intros H. destruct stored as [t |]; simpl; [| reflexivity].
  destruct (String.eqb_spec t s); [subst; congruence | reflexivity].
Qed.

(** C7. Take a session as any sequence of logins and callbacks has left it,
    starting from no session.  Once a callback has succeeded on it, its
    [state] is spent: whatever happens to the session afterwards (logins
    initiated, further callbacks), a callback carrying that state again is
    answered, whatever else it carries and whatever the token endpoint would
    say, with the generic error of a state mismatch, and the session with the
    tokens it holds is left as it was; any mismatching callback gets this very
    answer. *)
Theorem consumed_state_fails_like_mismatch
    (login : Gate.Login) (sid : string) (history later : list Gate.Step)
    (exchange exchange' : option string -> option Gate.Tokens)
    (sess' : Gate.Session) (req replay : Gate.CallbackRequest)
    (location : string) :
  Gate.Callback exchange
    (Gate.session (Gate.after login (Gate.anonymous sid) history)) req
  = (sess', Gate.SeeOther location, None) ->
  Gate.cb_state replay = Gate.cb_state req ->
  let spent :=
    Gate.mkFlow sess'
      (Gate.issued (Gate.after login (Gate.anonymous sid) history)) in
  let now := Gate.session (Gate.after login spent later) in
  Gate.Callback exchange' now replay
  = (now, Gate.GenericError, Some Gate.StateMismatch)
  /\
  forall other : Gate.CallbackRequest,
    Gate.state_matches (Gate.state now) (Gate.cb_state other) = false ->
    Gate.Callback exchange' now other = Gate.Callback exchange' now replay.
Proof.
  intros Hok Hsame spent now.
  destruct (Callback_success_consumes _ _ _ _ _ Hok)
    as (Hcleared & s & Hs & Hstored).
  destruct (after_stores_issued login 0 history (Gate.anonymous sid))
    as [_ Hbefore]; [simpl; lia | simpl; discriminate |].
  destruct (Hbefore s Hstored) as (m & Hm & ->).
  destruct (after_stores_issued login (Gate.issued spent) later spent)
    as [_ Hafter]; [lia | simpl; rewrite Hcleared; discriminate |].
  assert (Hmis : Gate.state_matches (Gate.state now) (Gate.cb_state replay) = false).
  { rewrite Hsame, Hs. apply state_matches_stored. intros Hnow.
    destruct (Hafter _ Hnow) as (m' & Hm' & E).
    apply nonce_injective in E. subst m'. simpl in Hm'. lia. }
  split; [apply Callback_mismatch; exact Hmis |].
  intros other Hother.
  rewrite (Callback_mismatch _ _ _ Hother), (Callback_mismatch _ _ _ Hmis).
  reflexivity.
Qed.

Lemma consumed_state_fails_like_mismatch_witness :
  let login := Gate.mkLogin "https://op.example/authorize" "gate"
                            "https://gate.example/oauth2/callback" in
  let exchange := fun code : option string =>
    match code with
    | Some _ => Some (Gate.mkTokens "at-1" (Some "rt-1") 3600%Z)
    | None => None
    end in
  let history := [Gate.Initiated "/foo/bar?x=1"] in
  let later := [Gate.Initiated "/other"] in
  let sess' := Gate.mkSession "sid" (Some "at-1") (Some "rt-1") (Some 3600%Z) None None in
  let req := Gate.mkCallbackRequest (Some "code-1") (Some ".") None in
  let replay := Gate.mkCallbackRequest (Some "code-2") (Some ".") None in
  let now := Gate.mkSession "sid" None None None (Some "x.") (Some "/other") in
  (Gate.Callback exchange
     (Gate.session (Gate.after login (Gate.anonymous "sid") history)) req
   = (sess', Gate.SeeOther "/foo/bar?x=1", None)
   /\ Gate.cb_state replay = Gate.cb_state req)
  /\
  (Gate.Callback exchange now replay
   = (now, Gate.GenericError, Some Gate.StateMismatch)
   /\
   forall other : Gate.CallbackRequest,
     Gate.state_matches (Gate.state now) (Gate.cb_state other) = false ->
     Gate.Callback exchange now other = Gate.Callback exchange now replay).
Proof.
  intros login exchange history later sess' req replay now.
  split; [split; reflexivity |].
  apply (consumed_state_fails_like_mismatch
           login "sid" history later exchange exchange sess' req replay
           "/foo/bar?x=1");
    reflexivity.
Defined.

(** * Further properties of the package *)

(** ** [Valid] *)

(** X1. [Valid] reports the first required field that is missing, in the
    order issuer, authorization_endpoint, jwks_uri, response_types_supported,
    subject_types_supported, id_token_signing_alg_values_supported: each
    message is returned exactly when its field is empty and every field before
    it is present. *)
Theorem Valid_reports_first_missing_field (c : Configuration) :
  (Valid c = Some (New "authproxy/oidc: issuer is empty") <->
   Issuer c = "") /\
  (Valid c = Some (New "authproxy/oidc: authorization_endpoint is empty") <->
   Issuer c <> "" /\ AuthorizationEndpoint c = "") /\
  (Valid c = Some (New "authproxy/oidc: jwks_uri is empty") <->
   Issuer c <> "" /\ AuthorizationEndpoint c <> "" /\ JWKSURI c = "") /\
  (Valid c = Some (New "authproxy/oidc: response_types_supported is empty") <->
   Issuer c <> "" /\ AuthorizationEndpoint c <> "" /\ JWKSURI c <> "" /\
   ResponseTypesSupported c = []) /\
  (Valid c = Some (New "authproxy/oidc: subject_types_supported is empty") <->
   Issuer c <> "" /\ AuthorizationEndpoint c <> "" /\ JWKSURI c <> "" /\
   ResponseTypesSupported c <> [] /\ SubjectTypesSupported c = []) /\
  (Valid c
   = Some (New "authproxy/oidc: id_token_signing_alg_values_supported is empty") <->
   Issuer c <> "" /\ AuthorizationEndpoint c <> "" /\ JWKSURI c <> "" /\
   ResponseTypesSupported c <> [] /\ SubjectTypesSupported c <> [] /\
   IDTokenSigningAlgValuesSupported c = []).
Proof.
  unfold Valid.
  destruct (Issuer c), (AuthorizationEndpoint c), (JWKSURI c),
    (ResponseTypesSupported c), (SubjectTypesSupported c),
    (IDTokenSigningAlgValuesSupported c);
    cbv [is_empty len_is_zero length Nat.eqb];
    repeat split; intros; try discriminate; try reflexivity;
    repeat match goal with H : _ /\ _ |- _ => destruct H end;
    congruence.
Qed.

(** ** [FillDefaultValuesIfEmpty] *)

(** X2. The configurations [FillDefaultValuesIfEmpty] leaves untouched are
    exactly those that already have the three lists non-empty and the pointer
    set. *)
Theorem FillDefaultValuesIfEmpty_fixed_points (c : Configuration) :
  FillDefaultValuesIfEmpty c = c <->
  ResponseModesSupported c <> [] /\ GrantTypesSupported c <> [] /\
  TokenEndpointAuthMethodsSupported c <> [] /\
  RequestURIParameterSupported c <> None.
Proof.
  split.
  - intros H.
    destruct (FillDefaultValuesIfEmpty_written c) as (H1 & H2 & H3 & H4).
    rewrite H in H1, H2, H3, H4.
    repeat split; intros E; rewrite E in *; simpl in *; discriminate.
  - intros (H1 & H2 & H3 & H4).
    destruct c as [i a t u j r sc rt rm gt ac st ia ie us ua ue os oa oe tm ts
                   dv ct cs sd cl ul cp rp ru rr op ot].
    simpl in *.
    destruct rm, gt, tm, ru; try congruence; reflexivity.
Qed.

(** ** The calls [GetOpenIDConnectConfiguration] makes *)

(** X3. A response body is closed exactly once, as the last thing the call
    does, whenever a response was received, whatever happens in between; and
    nothing is closed that was not received. *)
Theorem response_body_closed_once_and_last
    {W : Type} (h : world W) (w : W)
    (ctx : Context) (client : option Client) (url : string)
    (tr : list event) (o : outcome (Configuration * option error)) :
  run h (GetOpenIDConnectConfiguration ctx client url) w = (tr, o) ->
  (forall c req resp,
      In (EvDo c req (Ok resp)) tr ->
      exists before errClose,
        tr = (before ++ [EvClose (Body resp) errClose])%list
        /\ count is_close before = 0)
  /\
  (forall body errClose,
      In (EvClose body errClose) tr ->
      exists c req resp, In (EvDo c req (Ok resp)) tr /\ body = Body resp).
Proof.
  intros Hrun. destruct (run_inv _ _ _ _ _ _ _ Hrun) as (r & -> & Hw).
  inversion Hw as [ e0 | req0 e0 | req0 resp0 ec Hs | req0 resp0 doc e0 ec Hs
                  | req0 resp0 doc ec Hs ]; subst; split;
    intros; in_log;
    try (eexists [_; _], _; split; reflexivity);
    try (eexists [_; _; _], _; split; reflexivity);
    try (eexists _, _, _; split; [simpl; eauto | reflexivity]).
Qed.

Lemma response_body_closed_once_and_last_witness :
  let tr :=
    [EvNewRequest "GET" cut_url (Ok (mkRequest "GET" cut_url Background));
     EvDo TheDefaultClient (mkRequest "GET" cut_url Background)
          (Ok (mkResponse 200 "{"));
     EvDecode "{" zeroConfiguration
              (zeroConfiguration, Some (New "unexpected EOF"));
     EvClose "{" (Some (New "read: connection reset by peer"))] in
  let o :=
    Returned (zeroConfiguration,
              Some (Wrap (New "read: connection reset by peer")
                         "authproxy/oidc: couldn't close HTTP response body")) in
  (run testbed (GetOpenIDConnectConfiguration Background None cut_url) tt = (tr, o)
   /\ In (EvDo TheDefaultClient (mkRequest "GET" cut_url Background)
               (Ok (mkResponse 200 "{"))) tr)
  /\
  exists before errClose,
    tr = (before ++ [EvClose "{" errClose])%list /\ count is_close before = 0.
Proof.
  intros tr o.
  split; [split; [reflexivity | simpl; tauto] |].
  apply (proj1 (response_body_closed_once_and_last
                  testbed tt Background None cut_url tr o eq_refl)
               TheDefaultClient (mkRequest "GET" cut_url Background)
               (mkResponse 200 "{")).
  simpl; tauto.
Defined.

(** X4. The body is handed to the JSON decoder only when the status is 200,
    it is the body of the response that was received, and the decoder's
    target is the zero value. *)
Theorem body_decoded_only_on_status_ok
    {W : Type} (h : world W) (w : W)
    (ctx : Context) (client : option Client) (url : string)
    (tr : list event) (o : outcome (Configuration * option error))
    (body : ReadCloser) (into : Configuration)
    (res : Configuration * option error) :
  run h (GetOpenIDConnectConfiguration ctx client url) w = (tr, o) ->
  In (EvDecode body into res) tr ->
  into = zeroConfiguration /\
  exists c req resp,
    In (EvDo c req (Ok resp)) tr /\
    StatusCode resp = http_StatusOK /\ body = Body resp.
Proof.
  intros Hrun Hin. destruct (run_inv _ _ _ _ _ _ _ Hrun) as (r & -> & Hw).
  inversion Hw as [ e0 | req0 e0 | req0 resp0 ec Hs | req0 resp0 doc e0 ec Hs
                  | req0 resp0 doc ec Hs ]; subst; in_log;
    (split; [reflexivity |]);
    eexists _, _, resp0; (split; [simpl; eauto | split; [exact Hs | reflexivity]]).
Qed.

Lemma body_decoded_only_on_status_ok_witness :
  let tr :=
    [EvNewRequest "GET" op_url (Ok (mkRequest "GET" op_url Background));
     EvDo TheDefaultClient (mkRequest "GET" op_url Background)
          (Ok (mkResponse 200 minimal_json));
     EvDecode minimal_json zeroConfiguration (minimal_document, None);
     EvClose minimal_json None] in
  let o := Returned (FillDefaultValuesIfEmpty minimal_document, None) in
  (run testbed (GetOpenIDConnectConfiguration Background None op_url) tt = (tr, o)
   /\ In (EvDecode minimal_json zeroConfiguration (minimal_document, None)) tr)
  /\
  (zeroConfiguration = zeroConfiguration /\
   exists c req resp,
     In (EvDo c req (Ok resp)) tr /\
     StatusCode resp = http_StatusOK /\ minimal_json = Body resp).
Proof.
  intros tr o.
  split; [split; [reflexivity | simpl; tauto] |].
  apply (body_decoded_only_on_status_ok
           testbed tt Background None op_url tr o
           minimal_json zeroConfiguration (minimal_document, None)).
  - reflexivity.
  - simpl; tauto.
Defined.

(** X5. A failing [Close] decides the error: the call returns the wrapped
    close error exactly when closing the body failed, whatever error (or
    success) the body of the function had reached before. *)
Theorem close_failure_replaces_the_error
    {W : Type} (h : world W) (w : W)
    (ctx : Context) (client : option Client) (url : string)
    (tr : list event) (config : Configuration) (err : option error) :
  run h (GetOpenIDConnectConfiguration ctx client url) w
  = (tr, Returned (config, err)) ->
  forall e : error,
    err = Some (Wrap e "authproxy/oidc: couldn't close HTTP response body") <->
    exists body, In (EvClose body (Some e)) tr.
Proof.
  intros Hrun e. destruct (run_inv _ _ _ _ _ _ _ Hrun) as (r & Hr & Hw).
  injection Hr as <-.
  inversion Hw as [ e0 | req0 e0 | req0 resp0 ec Hs | req0 resp0 doc e0 ec Hs
                  | req0 resp0 doc ec Hs ]; subst;
    try destruct ec as [e1 |]; simpl; split;
    try (intros H; discriminate H);
    try (intros [body H]; in_log; reflexivity);
    try (intros H; injection H as ->; eexists; simpl; eauto 6).
Qed.

Lemma close_failure_replaces_the_error_witness :
  let tr :=
    [EvNewRequest "GET" cut_url (Ok (mkRequest "GET" cut_url Background));
     EvDo TheDefaultClient (mkRequest "GET" cut_url Background)
          (Ok (mkResponse 200 "{"));
     EvDecode "{" zeroConfiguration
              (zeroConfiguration, Some (New "unexpected EOF"));
     EvClose "{" (Some (New "read: connection reset by peer"))] in
  let err :=
    Some (Wrap (New "read: connection reset by peer")
               "authproxy/oidc: couldn't close HTTP response body") in
  run testbed (GetOpenIDConnectConfiguration Background None cut_url) tt
  = (tr, Returned (zeroConfiguration, err))
  /\
  (err = Some (Wrap (New "read: connection reset by peer")
                    "authproxy/oidc: couldn't close HTTP response body") <->
   exists body, In (EvClose body (Some (New "read: connection reset by peer"))) tr).
Proof.
  intros tr err.
  split; [reflexivity |].
  apply (close_failure_replaces_the_error
           testbed tt Background None cut_url tr zeroConfiguration err eq_refl).
Defined.

(** X6. When decoding fails the defaults are not applied: the configuration
    returned is the one the decoder left, and the error is the wrapped decode
    error unless closing the body failed as well. *)
Theorem decode_failure_returns_undefaulted_configuration
    {W : Type} (h : world W) (w : W)
    (ctx : Context) (client : option Client) (url : string)
    (tr : list event) (o : outcome (Configuration * option error))
    (body : ReadCloser) (into left_by_decoder : Configuration) (e : error) :
  run h (GetOpenIDConnectConfiguration ctx client url) w = (tr, o) ->
  In (EvDecode body into (left_by_decoder, Some e)) tr ->
  exists err,
    o = Returned (left_by_decoder, Some err) /\
    (close_failed tr \/
     err = Wrap e "authproxy/oidc: couldn't decode HTTP response body to JSON").
Proof.
  intros Hrun Hin. destruct (run_inv _ _ _ _ _ _ _ Hrun) as (r & -> & Hw).
  inversion Hw as [ e0 | req0 e0 | req0 resp0 ec Hs | req0 resp0 doc e0 ec Hs
                  | req0 resp0 doc ec Hs ]; subst; in_log.
  destruct ec as [e1 |]; simpl; eexists; (split; [reflexivity |]).
  - left. exists (Body resp0), e1. simpl; tauto.
  - right. reflexivity.
Qed.

Lemma decode_failure_returns_undefaulted_configuration_witness :
  let tr :=
    [EvNewRequest "GET" cut_url (Ok (mkRequest "GET" cut_url Background));
     EvDo TheDefaultClient (mkRequest "GET" cut_url Background)
          (Ok (mkResponse 200 "{"));
     EvDecode "{" zeroConfiguration
              (zeroConfiguration, Some (New "unexpected EOF"));
     EvClose "{" (Some (New "read: connection reset by peer"))] in
  let o :=
    Returned (zeroConfiguration,
              Some (Wrap (New "read: connection reset by peer")
                         "authproxy/oidc: couldn't close HTTP response body")) in
  (run testbed (GetOpenIDConnectConfiguration Background None cut_url) tt = (tr, o)
   /\ In (EvDecode "{" zeroConfiguration
                   (zeroConfiguration, Some (New "unexpected EOF"))) tr)
  /\
  exists err,
    o = Returned (zeroConfiguration, Some err) /\
    (close_failed tr \/
     err = Wrap (New "unexpected EOF")
                "authproxy/oidc: couldn't decode HTTP response body to JSON").
Proof.
  intros tr o.
  split; [split; [reflexivity | simpl; tauto] |].
  apply (decode_failure_returns_undefaulted_configuration
           testbed tt Background None cut_url tr o
           "{" zeroConfiguration zeroConfiguration (New "unexpected EOF")).
  - reflexivity.
  - simpl; tauto.
Defined.

(** X7. The function has no retry of its own.  It calls [http.NewRequest]
    once, first, with GET and the given URL; it calls [client.Do] once if the
    request was created and not at all otherwise; it calls the decoder once
    if a response with status 200 was received and not at all otherwise.
    (What [client.Do] does inside is not counted.) *)
Theorem single_attempt_no_retry
    {W : Type} (h : world W) (w : W)
    (ctx : Context) (client : option Client) (url : string) :
  let tr := fst (run h (GetOpenIDConnectConfiguration ctx client url) w) in
  exists res rest,
    tr = EvNewRequest http_MethodGet url res :: rest
    /\ count is_new_request rest = 0
    /\ count is_fetch tr = (match res with Ok _ => 1 | Err _ => 0 end)
    /\ count is_decode tr = count is_ok_response tr
    /\ count is_decode tr <= 1.
Proof.
  destruct (run_walk h w ctx client url) as (tr & r & Hrun & Hw).
  rewrite Hrun. cbv zeta. cbn [fst].
  inversion Hw as [ e0 | req0 e0 | req0 resp0 ec Hs | req0 resp0 doc e0 ec Hs
                  | req0 resp0 doc ec Hs ]; subst;
    eexists _, _; (split; [reflexivity |]);
    cbv [count filter is_new_request is_fetch is_decode is_ok_response];
    try (apply Z.eqb_neq in Hs; rewrite Hs);
    try (apply Z.eqb_eq in Hs; rewrite Hs);
    cbn [length]; repeat split; auto.
Qed.

(** X8. What is sent is the request that [http.NewRequest] built for the
    given URL, with nothing but its context replaced by the caller's, and it
    is sent with the caller's client whenever that pointer is not nil. *)
Theorem request_sent_as_created
    {W : Type} (h : world W) (w : W)
    (ctx : Context) (client : option Client) (url : string)
    (tr : list event) (o : outcome (Configuration * option error))
    (c : Client) (req : Request) (res : result Response) :
  run h (GetOpenIDConnectConfiguration ctx client url) w = (tr, o) ->
  In (EvDo c req res) tr ->
  (exists created,
      In (EvNewRequest http_MethodGet url (Ok created)) tr /\
      Method req = Method created /\ URL req = URL created /\
      req_ctx req = ctx)
  /\ (forall mine, client = Some mine -> c = mine).
Proof.
  intros Hrun Hin. destruct (run_inv _ _ _ _ _ _ _ Hrun) as (r & -> & Hw).
  inversion Hw as [ e0 | req0 e0 | req0 resp0 ec Hs | req0 resp0 doc e0 ec Hs
                  | req0 resp0 doc ec Hs ]; subst; in_log;
    (split; [exists req0; simpl; tauto | intros mine ->; reflexivity]).
Qed.

Lemma request_sent_as_created_witness :
  let ctx := WithCancel Background in
  let created := mkRequest "GET" op_url Background in
  let req := mkRequest "GET" op_url ctx in
  let tr :=
    [EvNewRequest "GET" op_url (Ok created);
     EvDo (CustomClient 3) req (Ok (mkResponse 200 minimal_json));
     EvDecode minimal_json zeroConfiguration (minimal_document, None);
     EvClose minimal_json None] in
  let o := Returned (FillDefaultValuesIfEmpty minimal_document, None) in
  (run testbed
       (GetOpenIDConnectConfiguration ctx (Some (CustomClient 3)) op_url) tt
   = (tr, o)
   /\ In (EvDo (CustomClient 3) req (Ok (mkResponse 200 minimal_json))) tr)
  /\
  ((exists created',
       In (EvNewRequest http_MethodGet op_url (Ok created')) tr /\
       Method req = Method created' /\ URL req = URL created' /\
       req_ctx req = ctx)
   /\ (forall mine, Some (CustomClient 3) = Some mine -> CustomClient 3 = mine)).
Proof.
  intros ctx created req tr o.
  split; [split; [reflexivity | simpl; tauto] |].
  apply (request_sent_as_created
           testbed tt ctx (Some (CustomClient 3)) op_url tr o
           (CustomClient 3) req (Ok (mkResponse 200 minimal_json))).
  - reflexivity.
  - simpl; tauto.
Defined.

(** X9. The error returned names the step that failed and keeps its cause:
    it is the create-request wrap exactly when [http.NewRequest] failed with
    that cause, the request-failed wrap exactly when the transport did, the
    status error with the code received exactly when that code is not 200 and
    the body closed cleanly, and the decode wrap exactly when the decoder
    failed with that cause and the body closed cleanly. *)
Theorem error_names_the_failed_step
    {W : Type} (h : world W) (w : W)
    (ctx : Context) (client : option Client) (url : string)
    (tr : list event) (config : Configuration) (err : option error) :
  run h (GetOpenIDConnectConfiguration ctx client url) w
  = (tr, Returned (config, err)) ->
  (forall e,
      err = Some (Wrap e "authproxy/oidc: couldn't create HTTP request") <->
      In (EvNewRequest http_MethodGet url (Err e)) tr)
  /\
  (forall e,
      err = Some (Wrap e "authproxy/oidc: HTTP request failed") <->
      exists c req, In (EvDo c req (Err e)) tr)
  /\
  (forall d,
      err = Some (Errorf_d "authproxy:oidc received non-200 status code: %d" d) <->
      (exists c req resp,
          In (EvDo c req (Ok resp)) tr /\ StatusCode resp = d)
      /\ d <> http_StatusOK /\ ~ close_failed tr)
  /\
  (forall e,
      err = Some (Wrap e "authproxy/oidc: couldn't decode HTTP response body to JSON") <->
      (exists body into left_by_decoder,
          In (EvDecode body into (left_by_decoder, Some e)) tr)
      /\ ~ close_failed tr).
Proof.
  intros Hrun. destruct (run_inv _ _ _ _ _ _ _ Hrun) as (r & Hr & Hw).
  injection Hr as <-.
  inversion Hw as [ e0 | req0 e0 | req0 resp0 ec Hs | req0 resp0 doc e0 ec Hs
                  | req0 resp0 doc ec Hs ]; subst;
    try destruct ec as [e1 |]; simpl after_close;
    repeat match goal with |- _ /\ _ => split end;
    intros x; split; intros H;
    try discriminate H;
    unfold close_failed in *;
    repeat match goal with
           | H : _ /\ _ |- _ => destruct H
           | H : exists _, _ |- _ => destruct H
           end;
    in_log;
    try reflexivity;
    try (exfalso; congruence);
    try match goal with
        | H : ~ _ |- _ => exfalso; apply H; eexists _, _; simpl; eauto 6; fail
        end;
    try (injection H as <-);
    repeat match goal with |- _ /\ _ => split end;
    try (simpl; eauto 6; fail);
    try (eexists _, _; simpl; eauto 6; fail);
    try (eexists _, _, _; simpl; eauto 6; fail);
    try assumption;
    try (intros (b & e & Hin); in_log; fail).
Qed.

Lemma error_names_the_failed_step_witness :
  let tr :=
    [EvNewRequest "GET" gone_url (Ok (mkRequest "GET" gone_url Background));
     EvDo TheDefaultClient (mkRequest "GET" gone_url Background)
          (Ok (mkResponse 404 "404 page not found"));
     EvClose "404 page not found" None] in
  let err :=
    Some (Errorf_d "authproxy:oidc received non-200 status code: %d" 404) in
  run internet (GetOpenIDConnectConfiguration Background None gone_url) tt
  = (tr, Returned (zeroConfiguration, err))
  /\
  (err = Some (Errorf_d "authproxy:oidc received non-200 status code: %d" 404) <->
   (exists c req resp, In (EvDo c req (Ok resp)) tr /\ StatusCode resp = 404%Z)
   /\ 404%Z <> http_StatusOK /\ ~ close_failed tr).
Proof.
  intros tr err.
  split; [reflexivity |].
  apply (proj1 (proj2 (proj2 (error_names_the_failed_step
                                internet tt Background None gone_url
                                tr zeroConfiguration err eq_refl)))
               404%Z).
Defined.

(** ** Fetching, then validating *)

(** X10. For a caller that fetches and then validates: a configuration
    returned with a nil error passes [Valid] exactly when the document that
    was decoded carries the six required fields; the defaults filled in
    between make no difference. *)
Theorem fetched_configuration_valid_iff_document_complete
    {W : Type} (h : world W) (w : W)
    (ctx : Context) (client : option Client) (url : string)
    (tr : list event) (config : Configuration) :
  run h (GetOpenIDConnectConfiguration ctx client url) w
  = (tr, Returned (config, None)) ->
  (Valid config = None <->
   exists body document,
     In (EvDecode body zeroConfiguration (document, None)) tr /\
     Issuer document <> "" /\ AuthorizationEndpoint document <> "" /\
     JWKSURI document <> "" /\ ResponseTypesSupported document <> [] /\
     SubjectTypesSupported document <> [] /\
     IDTokenSigningAlgValuesSupported document <> []).
Proof.
  intros Hrun. destruct (run_inv _ _ _ _ _ _ _ Hrun) as (r & Hr & Hw).
  injection Hr as <-.
  inversion Hw as [ e0 | req0 e0 | req0 resp0 ec Hs | req0 resp0 doc e0 ec Hs
                  | req0 resp0 doc ec Hs ]; subst;
    try (destruct ec; discriminate).
  destruct ec as [e1 |]; [discriminate |]. cbn [after_close] in *.
  rewrite Valid_FillDefaultValuesIfEmpty, Valid_nil_tests.
  rewrite !is_empty_false, !len_is_zero_false.
  split.
  - intros H. exists (Body resp0), doc. split; [simpl; tauto | exact H].
  - intros (body & document & Hin & H). in_log. exact H.
Qed.

Lemma fetched_configuration_valid_iff_document_complete_witness :
  let tr :=
    [EvNewRequest "GET" op_url (Ok (mkRequest "GET" op_url Background));
     EvDo TheDefaultClient (mkRequest "GET" op_url Background)
          (Ok (mkResponse 200 minimal_json));
     EvDecode minimal_json zeroConfiguration (minimal_document, None);
     EvClose minimal_json None] in
  let config := FillDefaultValuesIfEmpty minimal_document in
  run testbed (GetOpenIDConnectConfiguration Background None op_url) tt
  = (tr, Returned (config, None))
  /\ Valid config = None
  /\ (Valid config = None <->
      exists body document,
        In (EvDecode body zeroConfiguration (document, None)) tr /\
        Issuer document <> "" /\ AuthorizationEndpoint document <> "" /\
        JWKSURI document <> "" /\ ResponseTypesSupported document <> [] /\
        SubjectTypesSupported document <> [] /\
        IDTokenSigningAlgValuesSupported document <> []).
Proof.
  intros tr config.
  split; [reflexivity |].
  split; [reflexivity |].
  apply (fetched_configuration_valid_iff_document_complete
           testbed tt Background None op_url tr config eq_refl).
Defined.
